(** * The Ajazz stream-deck driver (package streamdeck, type DeviceAjazz)

    A shallow embedding of the device protocol of the driver: the key index
    mapper, the low-level report write, the chunked transport, the retry
    wrappers, the command set and the sleep / wake / brightness state
    machine, each definition following the Go function of the same name.

    Conventions.
    - A [uint8] and a byte are a [Z] in [0, 256); arithmetic that can leave
      the range is wrapped with [uint8] where the Go code computes it.
    - A [[]byte] is a [list Z]; lengths and slice bounds are [nat] (a Go
      [int] that is a length or an offset of a slice never wraps).
    - A Go method of the device is a function [Device -> res A * Device]:
      the state after the call is returned next to the result, and a
      run-time fault (an index out of range, a second [Lock] of a mutex
      that is held, a loop without bound) ends the run.
    - The model is sequential: one caller, no goroutine.  The mutex [d.mutex]
      is taken on entry of every command and released on its return, never
      while it is held, so it is always free when asked for and is left
      out; [d.sleepMutex] is kept, because [SetBrightness] asks for it and
      is called by [Sleep] and [Wake], which hold it. *)

From stdpp Require Import prelude strings.

Open Scope Z_scope.

(** ** Results of a run *)

Inductive fault : Type :=
| IndexOutOfRange   (* run-time panic of an index or slice expression *)
| Deadlock          (* Lock on a mutex the caller already holds *)
| NoBound.          (* a loop for which the model has no bound *)

Inductive res (A : Type) : Type :=
| Ret (a : A)
| Fault (f : fault).
Arguments Ret {A} a.
Arguments Fault {A} f.

(** uint8 conversion and wrap-around. *)
Definition uint8 (x : Z) : Z := x mod 256.

(** [l[i]] for an index that is an unsigned machine integer. *)
Definition index_at {A : Type} (l : list A) (i : Z) : res A :=
  if 0 <=? i then
    match l !! Z.to_nat i with
    | Some v => Ret v
    | None => Fault IndexOutOfRange
    end
  else Fault IndexOutOfRange.

(** ** Key index mapper *)

Module KeyIndex.

Definition elgato_table : list Z :=
  [12; 9; 6; 3; 0; 15; 13; 10; 7; 4; 1; 16; 14; 11; 8; 5; 2; 17].

Definition ajazz_table : list Z :=
  [4; 10; 16; 3; 9; 15; 2; 8; 14; 1; 7; 13; 0; 6; 12; 5; 11; 17].

(** [elgato_to_ajazz]: the guard [index > 17] keeps the table access in range
    for every uint8 (lemma [elgato_lookup_in_range]), so the result is a
    plain value. *)
Definition elgato_to_ajazz (index columns : Z) : Z :=
  if index >? 17 then index
  else uint8 ((elgato_table !!! Z.to_nat index) + 1).

(** [ajazz_to_elgato]: the table is read at [index-1], computed in uint8. *)
Definition ajazz_to_elgato (index columns : Z) : res Z :=
  if index >? 18 then Ret index
  else index_at ajazz_table (uint8 (index - 1)).

Definition is_uint8 (x : Z) : Prop := 0 <= x < 256.

End KeyIndex.
Export KeyIndex.

(** ** Errors *)

#[warnings="-register-all"]
Inductive error : Type :=
| ErrWrite (k : nat)              (* the error of the HID handle at its k-th Write *)
| ErrInvalidDataLength (n : nat)  (* invalid data length: n *)
| ErrWrongDimensions (px : Z)     (* supplied image has wrong dimensions *)
| ErrCodec (code : Z)             (* an error of the image encoder *)
| ErrConvert (e : error)          (* cannot convert image data: e *)
| ErrSend (e : error)             (* cannot send image data: e *)
| ErrAttempts (log : list error). (* retry.Error: the errors of the attempts *)

(** ** Slices *)

Module Slice.

(** [copy(dst, src)]: the first [min (len dst) (len src)] elements. *)
Definition copy (dst src : list Z) : list Z :=
  take (length dst) src ++ drop (length src) dst.

(** [copy(dst[off:], src)] as seen from [dst], for [off <= len dst]. *)
Definition copy_at (dst : list Z) (off : nat) (src : list Z) : list Z :=
  take off dst ++ copy (drop off dst) src.

(** [l[lo:hi]] *)
Definition slice (l : list Z) (lo hi : nat) : res (list Z) :=
  if decide (lo <= hi <= length l)%nat
  then Ret (take (hi - lo) (drop lo l))
  else Fault IndexOutOfRange.

(** [l[i] = v] *)
Definition store (l : list Z) (i : nat) (v : Z) : res (list Z) :=
  if decide (i < length l)%nat then Ret (<[i:=v]> l) else Fault IndexOutOfRange.

Definition uint32 (x : Z) : Z := x mod 2 ^ 32.

(** [binary.BigEndian.PutUint32(b[off:], v)] as seen from [b]. *)
Definition PutUint32 (b : list Z) (off : nat) (v : Z) : res (list Z) :=
  if decide (off + 3 < length b)%nat then
    Ret (<[(off + 3)%nat := uint8 v]>
        (<[(off + 2)%nat := uint8 (Z.shiftr v 8)]>
        (<[(off + 1)%nat := uint8 (Z.shiftr v 16)]>
        (<[off := uint8 (Z.shiftr v 24)]> b))))
  else Fault IndexOutOfRange.

End Slice.
Export Slice.

(** ** The device session *)

(** [image.Image], as far as the driver looks at it: the extent of its
    bounds; the pixels are read by the codec collaborators only. *)
Record Image : Type := mkImage { Dx : Z; Dy : Z; pix : list Z }.

(** [image.NewRGBA(image.Rect(0, 0, px, px))] drawn over with opaque black. *)
Definition blackImage (px : Z) : Image :=
  {| Dx := px; Dy := px;
     pix := concat (replicate (Z.to_nat (px * px)) [0; 0; 0; 255]) |}.

(** The HID handle: the reports passed to [Write] so far, oldest first, and
    the answers of the transport, [fails k] telling whether the [k]-th call
    of [Write] (counted from 0) reports an error. *)
Record Hid : Type := mkHid {
  written : list (list Z);
  fails : nat -> bool
}.

(** The fields of [DeviceAjazz] that the functions modelled here read or
    write.  Left out: the identification and the geometry that only the
    getters return ([ID], [Serial], [DPI], [Padding]), the fields no function
    of the file reads ([featureReportSize], [keyStateOffset], [cmd1]), the
    handles of the idle timer and of the device enumeration ([sleepCancel],
    [info]), [translateKeyIndex], which only the key reader calls, the
    mutex [d.mutex], and the codec functions, which are parameters of the
    driver below. *)
Record Device : Type := mkDevice {
  Columns : Z;
  Rows : Z;
  Keys : Z;
  Pixels : Z;
  device : Hid;
  lastActionTime : Z;
  asleep : bool;
  sleepMutex : bool;             (* true while the lock is held *)
  fadeDuration : Z;
  brightness : Z;
  preSleepBrightness : Z;
  cmd : list Z;
  zero : list Z
}.

Definition set_device (h : Hid) (d : Device) : Device :=
  mkDevice (Columns d) (Rows d) (Keys d) (Pixels d) h (lastActionTime d)
    (asleep d) (sleepMutex d) (fadeDuration d) (brightness d)
    (preSleepBrightness d) (cmd d) (zero d).

Definition set_lastActionTime (t : Z) (d : Device) : Device :=
  mkDevice (Columns d) (Rows d) (Keys d) (Pixels d) (device d) t
    (asleep d) (sleepMutex d) (fadeDuration d) (brightness d)
    (preSleepBrightness d) (cmd d) (zero d).

Definition set_asleep (a : bool) (d : Device) : Device :=
  mkDevice (Columns d) (Rows d) (Keys d) (Pixels d) (device d) (lastActionTime d)
    a (sleepMutex d) (fadeDuration d) (brightness d)
    (preSleepBrightness d) (cmd d) (zero d).

Definition set_sleepMutex (held : bool) (d : Device) : Device :=
  mkDevice (Columns d) (Rows d) (Keys d) (Pixels d) (device d) (lastActionTime d)
    (asleep d) held (fadeDuration d) (brightness d)
    (preSleepBrightness d) (cmd d) (zero d).

Definition set_brightness (b : Z) (d : Device) : Device :=
  mkDevice (Columns d) (Rows d) (Keys d) (Pixels d) (device d) (lastActionTime d)
    (asleep d) (sleepMutex d) (fadeDuration d) b
    (preSleepBrightness d) (cmd d) (zero d).

Definition set_preSleepBrightness (b : Z) (d : Device) : Device :=
  mkDevice (Columns d) (Rows d) (Keys d) (Pixels d) (device d) (lastActionTime d)
    (asleep d) (sleepMutex d) (fadeDuration d) (brightness d)
    b (cmd d) (zero d).

Definition set_cmd (c : list Z) (d : Device) : Device :=
  mkDevice (Columns d) (Rows d) (Keys d) (Pixels d) (device d) (lastActionTime d)
    (asleep d) (sleepMutex d) (fadeDuration d) (brightness d)
    (preSleepBrightness d) c (zero d).

(** The reports [rs] handed to the HID handle, after those it has. *)
Definition add_written (rs : list (list Z)) (d : Device) : Device :=
  set_device (mkHid (written (device d) ++ rs) (fails (device d))) d.

(** ** Methods as state transformers *)

Definition M (A : Type) : Type := Device -> res A * Device.

Definition ret {A : Type} (a : A) : M A := fun d => (Ret a, d).

Definition bind {A B : Type} (m : M A) (k : A -> M B) : M B :=
  fun d =>
    match m d with
    | (Ret a, d') => k a d'
    | (Fault f, d') => (Fault f, d')
    end.

Definition raise {A : Type} (f : fault) : M A := fun d => (Fault f, d).
Definition lift {A : Type} (r : res A) : M A := fun d => (r, d).
Definition gets {A : Type} (f : Device -> A) : M A := fun d => (Ret (f d), d).
Definition modify (f : Device -> Device) : M unit := fun d => (Ret tt, f d).

Notation "x <- m ;; k" := (bind m (fun x => k))
  (at level 100, m at next level, k at level 200, right associativity).
Notation "m ;; k" := (bind m (fun _ => k))
  (at level 100, k at level 200, right associativity).

(** [err := m; if err != nil { return err }; k] *)
Definition orReturn (m : M (option error)) (k : M (option error)) : M (option error) :=
  err <- m ;;
  match err with
  | Some e => ret (Some e)
  | None => k
  end.
Notation "'check' m ;; k" := (orReturn m k)
  (at level 100, m at next level, k at level 200, right associativity).

(** [d.device.Write(ptr)] *)
Definition Write (ptr : list Z) : M (option error) :=
  fun d =>
    let k := length (written (device d)) in
    (Ret (if fails (device d) k then Some (ErrWrite k) else None),
     add_written [ptr] d).

(** [d.sleepMutex.Lock()] and [Unlock()] *)
Definition lockSleep : M unit :=
  fun d => if sleepMutex d then (Fault Deadlock, d) else (Ret tt, set_sleepMutex true d).
Definition unlockSleep : M unit := modify (set_sleepMutex false).

(** [copy(d.cmd, src)] and [d.cmd[i] = v] on the shared transmit buffer. *)
Definition copy_cmd (src : list Z) : M unit :=
  modify (fun d => set_cmd (copy (cmd d) src) d).
Definition zero_cmd : M unit :=
  modify (fun d => set_cmd (copy (cmd d) (zero d)) d).
Definition store_cmd (i : nat) (v : Z) : M unit :=
  c <- gets cmd ;; c' <- lift (store c i v) ;; modify (set_cmd c').

(** ** The retry combinator *)

(** Modelled from the spec: [retry.Do] belongs to the dependency
    github.com/avast/retry-go/v4 (go.mod), whose source is not in the
    repository.  Section 4.4: a failed operation is executed again, up to
    the bounded attempt count, and for an upload the slot is cleared before
    each retry; as in the library, the [OnRetry] hook runs after every
    failed attempt (so also after the last one), and the error returned
    when the attempts are exhausted holds the errors of all attempts in
    order, the last error last (the one its [Unwrap] gives).  The waiting
    time between attempts is not modelled.  [more] counts the attempts
    that may follow the current one, [n] those that failed. *)
Fixpoint retry_attempts (more n : nat) (retryableFunc : M (option error))
    (onRetry : nat -> error -> M unit) (errorLog : list error) : M (option error) :=
  err <- retryableFunc ;;
  match err with
  | None => ret None
  | Some e =>
      onRetry n e ;;
      match more with
      | O => ret (Some (ErrAttempts (errorLog ++ [e])))
      | S more' => retry_attempts more' (S n) retryableFunc onRetry (errorLog ++ [e])
      end
  end.

(** Modelled from the spec: [retry.Do(f, retry.OnRetry(h),
    retry.Attempts(attempts))] of the same dependency, the loop above
    entered at the first attempt.  The library reads an attempt count of 0
    as retrying until success, a loop without bound that no call of this
    package asks for (every count passed is 3). *)
Definition retry_Do (retryableFunc : M (option error))
    (onRetry : nat -> error -> M unit) (attempts : nat) : M (option error) :=
  match attempts with
  | O => raise NoBound
  | S more => retry_attempts more 0 retryableFunc onRetry []
  end.

(** The default hook of the library does nothing. *)
Definition noHook (n : nat) (e : error) : M unit := ret tt.

(** ** The driver *)

Definition header_LIG : list Z :=
  [0x43; 0x52; 0x54; 0x00; 0x00; 0x4c; 0x49; 0x47; 0x00; 0x00].
Definition header_LOG : list Z :=
  [0x43; 0x52; 0x54; 0x00; 0x00; 0x4c; 0x4f; 0x47; 0x00; 0x12; 0xc3; 0xc0; 0x01; 0x00; 0x00; 0x00].
Definition header_CLE : list Z :=
  [0x43; 0x52; 0x54; 0x00; 0x00; 0x43; 0x4c; 0x45; 0x00; 0x00; 0x00; 0xff; 0x00; 0x00; 0x00; 0x00].
Definition header_BAT : list Z :=
  [0x43; 0x52; 0x54; 0x00; 0x00; 0x42; 0x41; 0x54; 0x00; 0x00; 0x0c; 0x48; 0x0d; 0x00; 0x00; 0x00].

Section Driver.

(** [runtime.GOOS], the platform the driver is built for. *)
Variable GOOS : string.

(** The codec collaborators held by the session, [d.flipImage] and
    [d.toImageFormat] (bytes and error, as the Go function returns them). *)
Variable flipImage : Image -> Image.
Variable toImageFormat : Image -> list Z * option error.

(** [Fade] computes its ticks in float64 arithmetic from [start], [end] and
    [duration/fadeDelay] ([fadeDelay] is declared outside these sources).
    The embedding takes the outcome of that computation as given: for a
    fade, the values [uint8(current)] with which the loop body runs, in
    order (none when the step is infinite or the loop condition fails at
    once).  A fade whose loop never ends has no such list and is outside
    the model. *)
Variable fadeTicks : Z -> Z -> Z -> list Z.

Definition cmdWrite (data : list Z) : M (option error) :=
  withID <- (if String.eqb GOOS "windows" then ret false
             else first <- lift (index_at data 0) ;; ret (first =? 0)) ;;
  ptr <- (if withID : bool then
            ptr <- lift (store (replicate 513 0) 0 0x00) ;;
            let ptr := copy_at ptr 1 data in
            if (length data + 1 <? 513)%nat then
              z <- gets zero ;;
              pad <- lift (slice z 0 (513 - 1 - length data)) ;;
              ret (copy_at ptr (length data + 1) pad)
            else ret ptr
          else
            let ptr := copy (replicate 512 0) data in
            if (length data <? 512)%nat then
              z <- gets zero ;;
              pad <- lift (slice z 0 (512 - length data)) ;;
              ret (copy_at ptr (length data) pad)
            else ret ptr) ;;
  Write ptr.

Definition WriteRetry (data : list Z) : M (option error) :=
  retry_Do (cmdWrite data) noHook 3.

(** [d.WriteRetry(d.cmd)]: the buffer is not written to during the call, so
    the slice it passes is the contents of [d.cmd] at the call. *)
Definition WriteRetry_cmd : M (option error) :=
  c <- gets cmd ;; WriteRetry c.

Definition cmdLight (brightness : Z) : M (option error) :=
  zero_cmd ;;
  copy_cmd header_LIG ;;
  store_cmd 10 brightness ;;
  WriteRetry_cmd.

Definition cmdLightRetry (brightness : Z) (retryAttempts : nat) : M (option error) :=
  retry_Do (cmdLight brightness) noHook retryAttempts.

(** The loop [for i := 0; i < size; i += 512] that [cmdLogo], [cmdBatchRetry]
    and [cmdBatch] each contain, word for word. *)
Fixpoint writeChunks_from (fuel : nat) (data : list Z) (i : nat) : M (option error) :=
  match fuel with
  | O => raise NoBound
  | S fuel' =>
      let size := length data in
      if (i <? size)%nat then
        ptr <- lift (if (i + 512 <? size)%nat
                     then slice data i (i + 512)
                     else slice data i size) ;;
        check cmdWrite ptr ;;
        writeChunks_from fuel' data (i + 512)
      else ret None
  end.

(** The loop entered at [i = 0]; it ends within [len data + 1] tests of its
    condition (lemma [writeChunks_as_writes]). *)
Definition writeChunks (data : list Z) : M (option error) :=
  writeChunks_from (S (length data)) data 0.

Definition cmdLogo (data : list Z) : M (option error) :=
  if negb (Z.of_nat (length data) =? 854 * 480 * 3)
  then ret (Some (ErrInvalidDataLength (length data)))
  else
    zero_cmd ;;
    copy_cmd header_LOG ;;
    writeChunks data.

Definition cmdLogoRetry (data : list Z) (retryAttempts : nat) : M (option error) :=
  retry_Do (cmdLogo data) noHook retryAttempts.

Definition cmdClear (target : Z) : M (option error) :=
  columns <- gets Columns ;;
  let target := if negb (target =? 0xff) then elgato_to_ajazz target columns else target in
  zero_cmd ;;
  copy_cmd header_CLE ;;
  store_cmd 11 target ;;
  WriteRetry_cmd.

Definition cmdClearRetry (target : Z) (retryAttempts : nat) : M (option error) :=
  retry_Do (cmdClear target) noHook retryAttempts.

(** The function literal that [cmdBatchRetry] hands to [retry.Do]. *)
Definition cmdBatchRetry_func (index : Z) (data : list Z) : M (option error) :=
  columns <- gets Columns ;;
  let target := elgato_to_ajazz index columns in
  zero_cmd ;;
  copy_cmd header_BAT ;;
  store_cmd 12 target ;;
  let size := length data in
  c <- gets cmd ;;
  c' <- lift (PutUint32 c 8 (uint32 (Z.of_nat size))) ;;
  modify (set_cmd c') ;;
  c <- gets cmd ;;
  check cmdWrite c ;;
  writeChunks data.

Definition cmdBatchRetry (index : Z) (data : list Z) (retryAttempts : nat) : M (option error) :=
  retry_Do (cmdBatchRetry_func index data)
           (fun n err => cmdClear index ;; ret tt)
           retryAttempts.

Definition cmdBatch (target : Z) (data : list Z) : M (option error) :=
  columns <- gets Columns ;;
  let target := elgato_to_ajazz (uint8 (target + 1)) columns in
  zero_cmd ;;
  copy_cmd header_BAT ;;
  store_cmd 12 target ;;
  let size := length data in
  c <- gets cmd ;;
  c' <- lift (PutUint32 c 8 (uint32 (Z.of_nat size))) ;;
  modify (set_cmd c') ;;
  check WriteRetry_cmd ;;
  writeChunks data.

Definition SetImage (index : Z) (img : Image) : M (option error) :=
  px <- gets Pixels ;;
  if negb (Dy img =? px) || negb (Dx img =? px)
  then ret (Some (ErrWrongDimensions px))
  else
    let (imageBytes, err) := toImageFormat (flipImage img) in
    match err with
    | Some e => ret (Some (ErrConvert e))
    | None =>
        err <- cmdBatchRetry index imageBytes 3 ;;
        match err with
        | Some e => ret (Some (ErrSend e))
        | None => ret None
        end
    end.

(** The loop of [Clear]: [for i := uint8(0); i <= d.Columns*d.Rows; i++],
    counter and bound in uint8. *)
Fixpoint Clear_from (fuel : nat) (img : Image) (i : Z) : M (option error) :=
  match fuel with
  | O => raise NoBound
  | S fuel' =>
      columns <- gets Columns ;;
      rows <- gets Rows ;;
      if i <=? uint8 (columns * rows) then
        check SetImage i img ;;
        Clear_from fuel' img (uint8 (i + 1))
      else ret None
  end.

(** When the bound is below 255 the loop ends within 256 tests of its
    condition; with the bound 255 the condition never fails and the loop
    only ends on an error. *)
Definition Clear : M (option error) :=
  px <- gets Pixels ;;
  let img := blackImage px in
  Clear_from 256 img 0.

Definition SetBrightness (percent : Z) : M (option error) :=
  let percent := if percent >? 100 then 100 else percent in
  modify (set_brightness percent) ;;
  a <- gets asleep ;;
  if a && (percent >? 0) then
    lockSleep ;;
    modify (set_preSleepBrightness percent) ;;
    unlockSleep ;;
    ret None
  else
    b <- gets brightness ;;
    cmdLightRetry b 3.

(** The body of [Fade] run over its ticks ([time.Sleep] is not modelled). *)
Fixpoint Fade_over (ticks : list Z) : M (option error) :=
  match ticks with
  | [] => ret None
  | current :: rest =>
      check SetBrightness current ;;
      Fade_over rest
  end.

Definition Fade (start end_ duration : Z) : M (option error) :=
  Fade_over (fadeTicks start end_ duration).

(** [defer d.sleepMutex.Unlock()] around a body. *)
Definition withSleepMutex (body : M (option error)) : M (option error) :=
  lockSleep ;;
  r <- body ;;
  unlockSleep ;;
  ret r.

Definition Sleep : M (option error) :=
  withSleepMutex (
    b <- gets brightness ;;
    modify (set_preSleepBrightness b) ;;
    b <- gets brightness ;;
    dur <- gets fadeDuration ;;
    check Fade b 0 dur ;;
    modify (set_asleep true) ;;
    SetBrightness 0).

(** [now] is the value of [time.Now()] read by the call. *)
Definition Wake (now : Z) : M (option error) :=
  withSleepMutex (
    modify (set_asleep false) ;;
    p <- gets preSleepBrightness ;;
    dur <- gets fadeDuration ;;
    check Fade 0 p dur ;;
    modify (set_lastActionTime now) ;;
    p <- gets preSleepBrightness ;;
    SetBrightness p).

End Driver.

(** ** What the claims speak of *)

(** The buffers as [Open] allocates them, [d.cmd = make([]byte, 512)] and
    [d.zero = make([]byte, 512)]: no function writes to [d.zero], and the
    commands write to [d.cmd] in place, which keeps its length. *)
Definition session_ok (d : Device) : Prop :=
  length (cmd d) = 512%nat /\ zero d = replicate 512 0.

(** No call of [Write] reports an error. *)
Definition transport_ok (d : Device) : Prop :=
  forall k, fails (device d) k = false.

(** The condition under which [cmdWrite] prepends the report-ID byte. *)
Definition withReportID (GOOS : string) (data : list Z) : bool :=
  negb (String.eqb GOOS "windows") &&
  match data with
  | first :: _ => first =? 0
  | [] => false
  end.

(** A chunk cut to the report capacity and filled up with zeros. *)
Definition padded (data : list Z) : list Z :=
  take 512 data ++ replicate (512 - length data) 0.

(** The report [cmdWrite] hands to the HID handle for a chunk. *)
Definition report (GOOS : string) (data : list Z) : list Z :=
  if withReportID GOOS data then 0x00 :: padded data else padded data.

(** The framing the specification describes: fixed by the platform. *)
Definition spec_report (reportIDPlatform : bool) (data : list Z) : list Z :=
  if reportIDPlatform then 0x00 :: padded data else padded data.

(** The windows of a payload: [ceil (N / 512)] of them, the [k]-th starting
    at offset [512 * k]. *)
Definition nwindows (data : list Z) : nat := ((length data + 511) / 512)%nat.
Definition window (data : list Z) (k : nat) : list Z := take 512 (drop (512 * k) data).
Definition windows (data : list Z) : list (list Z) :=
  map (window data) (seq 0 (nwindows data)).

(** Reports written one after the other, up to the first error. *)
Fixpoint write_all (reports : list (list Z)) : M (option error) :=
  match reports with
  | [] => ret None
  | r :: rest => check Write r ;; write_all rest
  end.

(** The frames the commands build in the transmit buffer. *)
Definition frame_LIG (brightness : Z) : list Z :=
  header_LIG ++ brightness :: replicate 501 0.
Definition frame_CLE (target : Z) : list Z :=
  take 11 header_CLE ++ target :: replicate 500 0.
Definition frame_BAT (target : Z) (size : nat) : list Z :=
  let v := uint32 (Z.of_nat size) in
  take 8 header_BAT ++
  [uint8 (Z.shiftr v 24); uint8 (Z.shiftr v 16); uint8 (Z.shiftr v 8); uint8 v;
   target] ++ replicate 499 0.

(** The failed attempts of an upload, each given by the number [m] of reports
    of the batch it wrote, the last of them the refused one, and the number
    [n] of clear frames written after it: the reports they add to the
    [start] reports written before, and the errors they end with. *)
Fixpoint failed_attempts (batch : list (list Z)) (clear : list Z) (start : nat)
    (failed : list (nat * nat)) : list (list Z) * list error :=
  match failed with
  | [] => ([], [])
  | (m, n) :: rest =>
      let segment := take m batch ++ replicate n clear in
      let later := failed_attempts batch clear (start + length segment) rest in
      (segment ++ fst later, ErrWrite (start + m - 1) :: snd later)
  end.

(** A failed attempt wrote at least the batch frame, and its slot was then
    cleared with one to three frames. *)
Definition attempt_shape (batch : list (list Z)) (mn : nat * nat) : Prop :=
  (1 <= fst mn <= length batch)%nat /\ (1 <= snd mn <= 3)%nat.

(** [percent] as [SetBrightness] stores it. *)
Definition clamp (percent : Z) : Z := if percent >? 100 then 100 else percent.

(** ** Sample sessions *)

Module Sample.

Definition quiet : Hid := mkHid [] (fun _ => false).
Definition broken : Hid := mkHid [] (fun _ => true).

(** A transport that refuses the second report it is given, and no other. *)
Definition flaky : Hid := mkHid [] (fun k => Nat.eqb k 1).

(** A 6 x 3 panel with keys of 2 x 2 pixels, awake at brightness 80, with a
    fade time of 250 ms. *)
Definition deck : Device :=
  mkDevice 6 3 18 2 quiet 0 false false 250000000 80 0
    (replicate 512 0) (replicate 512 0).

(** The same panel on a transport that refuses one report. *)
Definition deck_flaky : Device := set_device flaky deck.

(** The same panel on a transport that refuses every report. *)
Definition deck_broken : Device := set_device broken deck.

(** The same panel asleep, dark, remembering brightness 80. *)
Definition deck_asleep : Device :=
  mkDevice 6 3 18 2 quiet 0 true false 250000000 0 80
    (replicate 512 0) (replicate 512 0).

(** An encoder that yields three bytes for every image. *)
Definition encode (img : Image) : list Z * option error := ([1; 2; 3], None).
Definition flip (img : Image) : Image := img.

(** A fade in two ticks, at the start value and half way. *)
Definition ticks (start end_ duration : Z) : list Z :=
  if start =? end_ then [] else [start; (start + end_) / 2].

End Sample.

(** ** Key events and reads *)

(** [Key], as the reader builds it. *)
Record Key : Type := mkKey { Index : Z; Pressed : bool }.

(** One answer of [d.device.Read(keyBuffer)]: the count [n], the error, and
    the bytes the handle stored at the start of the buffer. *)
Record ReadAnswer : Type := mkRead {
  read_n : Z;
  read_err : option error;
  read_bytes : list Z
}.

(** The local state of the reader: its buffer, the events sent on the
    channel so far, and whether the channel is closed. *)
Record Reader : Type := mkReader {
  keyBuffer : list Z;
  kch : list Key;
  kch_closed : bool
}.

(** ** The rest of the command set *)

Definition header_STP : list Z :=
  [0x43; 0x52; 0x54; 0x00; 0x00; 0x53; 0x54; 0x50].
Definition header_HAN : list Z :=
  [0x43; 0x52; 0x54; 0x00; 0x00; 0x48; 0x41; 0x4e].
(** The header that [cmdHang] sends first and [cmdExit] sends alone
    ("to logo screen"). *)
Definition header_DC : list Z :=
  [0x43; 0x52; 0x54; 0x00; 0x00; 0x43; 0x4c; 0x45; 0x00; 0x00; 0x44; 0x43; 0x00; 0x00; 0x00; 0x00].

Definition set_zero (z : list Z) (d : Device) : Device :=
  mkDevice (Columns d) (Rows d) (Keys d) (Pixels d) (device d) (lastActionTime d)
    (asleep d) (sleepMutex d) (fadeDuration d) (brightness d)
    (preSleepBrightness d) (cmd d) z.

Section Session.

Variable GOOS : string.
Variable fadeTicks : Z -> Z -> Z -> list Z.

Definition cmdStop : M (option error) :=
  zero_cmd ;;
  copy_cmd header_STP ;;
  WriteRetry_cmd GOOS.

Definition cmdStopRetry (retryAttempts : nat) : M (option error) :=
  retry_Do cmdStop noHook retryAttempts.

Definition cmdExit : M (option error) :=
  zero_cmd ;;
  copy_cmd header_DC ;;
  WriteRetry_cmd GOOS.

Definition cmdHang : M (option error) :=
  zero_cmd ;;
  copy_cmd header_DC ;;
  check WriteRetry_cmd GOOS ;;
  zero_cmd ;;
  copy_cmd header_HAN ;;
  WriteRetry_cmd GOOS.

Definition cmdHangRetry (retryAttempts : nat) : M (option error) :=
  retry_Do cmdHang noHook retryAttempts.

Definition Reset : M (option error) :=
  check cmdStopRetry 3 ;;
  check cmdLightRetry GOOS 100 3 ;;
  check cmdClearRetry GOOS 0xff 3 ;;
  ret None.

Definition Flush : M (option error) := cmdStopRetry 3.

(** [FirmwareVersion]: [GetFeatureReport] is the answer of the HID handle to
    [d.device.GetFeatureReport(req)], the count [n], the error and the
    contents of the request buffer after the call.  The string returned is
    kept as its bytes. *)
Definition FirmwareVersion (GetFeatureReport : list Z -> Z * option error * list Z)
  : M (list Z * option error) :=
  req <- lift (store (replicate 512 0) 0 0x01) ;;
  let '(n, err, req) := GetFeatureReport req in
  match err with
  | Some e => ret ([], Some e)
  | None =>
      version <- lift (if 0 <=? n then slice req 0 (Z.to_nat n)
                       else Fault IndexOutOfRange) ;;
      ret (version, None)
  end.

(** [Open]: [now] is the value of [time.Now()], [infoOpen] the answer of
    [d.info.Open()], a handle and an error.  The print of the firmware
    version is left out. *)
Definition Open (now : Z) (infoOpen : Hid * option error)
    (GetFeatureReport : list Z -> Z * option error * list Z) : M (option error) :=
  modify (set_lastActionTime now) ;;
  modify (set_sleepMutex false) ;;
  modify (set_cmd (replicate 512 0)) ;;
  modify (set_zero (replicate 512 0)) ;;
  modify (set_device (fst infoOpen)) ;;
  match snd infoOpen with
  | Some e => ret (Some e)
  | None =>
      version <- FirmwareVersion GetFeatureReport ;;
      match snd version with
      | Some e => ret (Some e)
      | None =>
          check cmdStopRetry 3 ;;
          check cmdLightRetry GOOS 100 3 ;;
          cmdClearRetry GOOS 0xff 3
      end
  end.

(** *** The key reader *)

(** The device's [translateKeyIndex]; it may end in a run-time fault, as
    [ajazz_to_elgato] does. *)
Variable translateKeyIndex : Z -> Z -> res Z.

(** The body of the goroutine of [ReadKeys], run over the answers of
    [d.device.Read(keyBuffer)] it gets, each with the time at which it is
    handled; the events sent on the channel are collected in order.  When
    the answers are used up the goroutine waits in [Read]. *)
Fixpoint ReadKeys_loop (answers : list (ReadAnswer * Z)) (rd : Reader) : M Reader :=
  match answers with
  | [] => ret rd
  | (answer, now) :: rest =>
      let buffer := copy (keyBuffer rd) (read_bytes answer) in
      match read_err answer with
      | Some _ => ret (mkReader buffer (kch rd) true)
      | None =>
          if read_n answer <=? 0
          then ReadKeys_loop rest (mkReader buffer (kch rd) (kch_closed rd))
          else
            a <- gets asleep ;;
            if a : bool then
              Wake GOOS fadeTicks now ;;
              ReadKeys_loop rest (mkReader buffer (kch rd) (kch_closed rd))
            else
              lockSleep ;;
              modify (set_lastActionTime now) ;;
              unlockSleep ;;
              keyIndex <- lift (index_at buffer 9) ;;
              columns <- gets Columns ;;
              pressed <- lift (translateKeyIndex keyIndex columns) ;;
              released <- lift (translateKeyIndex keyIndex columns) ;;
              buffer <- lift (store buffer 9 0) ;;
              ReadKeys_loop rest
                (mkReader buffer
                   (kch rd ++ [mkKey pressed true; mkKey released false])
                   (kch_closed rd))
      end
  end.

Definition ReadKeys (answers : list (ReadAnswer * Z)) : M Reader :=
  ReadKeys_loop answers (mkReader (replicate 512 0) [] false).

(** *** The idle timer *)

(** One tick of the goroutine of [SetSleepTimeout] with the timeout [t], at
    the time [now] (the body of [case <-time.After(time.Second)]).  The
    read lock is taken like the write lock: in a run of one caller nobody
    else holds it. *)
Definition sleepTimer_tick (t now : Z) : M unit :=
  lockSleep ;;
  last <- gets lastActionTime ;;
  let since := now - last in
  unlockSleep ;;
  a <- gets asleep ;;
  if negb a && (since >=? t)
  then Sleep GOOS fadeTicks ;; ret tt
  else ret tt.

End Session.

(** ** What the further properties speak of *)

Definition frame_STP : list Z := header_STP ++ replicate 504 0.
Definition frame_HAN : list Z := header_HAN ++ replicate 504 0.
Definition frame_DC : list Z := header_DC ++ replicate 496 0.
Definition frame_LOG : list Z := header_LOG ++ replicate 496 0.

(** The handle accepts every report. *)
Definition handle_ok (h : Hid) : Prop := forall k, fails h k = false.

(** The events of a full key report: press and release of the key that the
    scan code at offset 9 is translated to. *)
Definition key_events (translateKeyIndex : Z -> Z -> res Z) (columns : Z)
    (answer : ReadAnswer) : list Key :=
  match read_bytes answer !! 9%nat with
  | Some code =>
      match translateKeyIndex code columns with
      | Ret index => [mkKey index true; mkKey index false]
      | Fault _ => []
      end
  | None => []
  end.

(** A full key report: no error, a positive count, ten bytes or more, and a
    scan code that the translation accepts. *)
Definition key_report (translateKeyIndex : Z -> Z -> res Z) (columns : Z)
    (answer : ReadAnswer) : Prop :=
  read_err answer = None /\ 0 < read_n answer /\
  exists code index,
    read_bytes answer !! 9%nat = Some code /\
    translateKeyIndex code columns = Ret index.

(** The session after [SetBrightness percent] has set the hardware: the
    clamped value is stored, and its set-light frame is in the transmit
    buffer and written once. *)
Definition lit (percent : Z) (d : Device) : Device :=
  add_written [frame_LIG (clamp percent)]
    (set_cmd (frame_LIG (clamp percent)) (set_brightness (clamp percent) d)).

(** The session after every tick of a fade has set the hardware. *)
Definition faded (ticks : list Z) (d : Device) : Device :=
  fold_left (fun d current => lit current d) ticks d.

(** The events of the answers the reader handles, in their order. *)
Definition events_of (translateKeyIndex : Z -> Z -> res Z) (columns : Z)
    (answers : list (ReadAnswer * Z)) : list Key :=
  flat_map (fun a => key_events translateKeyIndex columns (fst a)) answers.

(** The session after the reader has handled [answers] on a device that is
    awake: the time of the last one is the time of the last action. *)
Definition touched (answers : list (ReadAnswer * Z)) (d : Device) : Device :=
  from_option (fun a => set_lastActionTime (snd a) d) d (last answers).

Module Sample2.

(** A firmware answer of three bytes. *)
Definition firmware (req : list Z) : Z * option error * list Z :=
  (3, None, [0x31; 0x32; 0x33] ++ drop 3 req).

(** A key report with the scan code [code], handled at time 42. *)
Definition key (code : Z) : ReadAnswer * Z :=
  (mkRead 10 None [0; 0; 0; 0; 0; 0; 0; 0; 0; code], 42).

(** A report of three bytes, handled at time 43. *)
Definition short_report : ReadAnswer * Z := (mkRead 3 None [1; 2; 3], 43).

(** A session before [Open]: no buffers yet. *)
Definition closed_deck : Device :=
  mkDevice 6 3 18 72 Sample.broken 0 false false 0 0 0 [] [].

(** The sample panel asleep with a stored brightness of 50, as after
    [SetBrightness 50] while asleep. *)
Definition deck_asleep_50 : Device :=
  mkDevice 6 3 18 2 Sample.quiet 0 true false 250000000 50 50
    (replicate 512 0) (replicate 512 0).

End Sample2.

(** ** Key index mapper: properties *)

Lemma elgato_lookup_in_range (index : Z) :
  is_uint8 index -> (index >? 17) = false ->
  elgato_table !! Z.to_nat index = Some (elgato_table !!! Z.to_nat index).
Proof.
  intros [Hlo Hhi] Hg.
  apply list_lookup_lookup_total_lt.
  change (length elgato_table) with 18%nat. lia.
Qed.

(** Every value in [0, 18) is hit by a case analysis over the table. *)
Lemma below_18_cases (i : Z) :
  0 <= i < 18 ->
  i = 0 \/ i = 1 \/ i = 2 \/ i = 3 \/ i = 4 \/ i = 5 \/ i = 6 \/ i = 7 \/ i = 8 \/
  i = 9 \/ i = 10 \/ i = 11 \/ i = 12 \/ i = 13 \/ i = 14 \/ i = 15 \/ i = 16 \/ i = 17.
Proof. lia. Qed.

Ltac each_below_18 H :=
  apply below_18_cases in H;
  repeat (destruct H as [H | H]; [subst; try reflexivity |]); subst; try reflexivity.

Lemma elgato_then_ajazz_in_table (index columns : Z) :
  0 <= index < 18 ->
  ajazz_to_elgato (elgato_to_ajazz index columns) columns = Ret index.
Proof. intros H. each_below_18 H. Qed.

Lemma elgato_to_ajazz_above (index columns : Z) :
  17 < index -> elgato_to_ajazz index columns = index.
Proof.
  intros H. unfold elgato_to_ajazz.
  destruct (index >? 17) eqn:E; [reflexivity | lia].
Qed.

Lemma ajazz_to_elgato_above (index columns : Z) :
  18 < index -> ajazz_to_elgato index columns = Ret index.
Proof.
  intros H. unfold ajazz_to_elgato.
  destruct (index >? 18) eqn:E; [reflexivity | lia].
Qed.

(** ** Slices: lemmas *)

Lemma copy_zeros (n : nat) (data : list Z) :
  copy (replicate n 0) data = take n data ++ replicate (n - length data) 0.
Proof.
  unfold copy. rewrite length_replicate, drop_replicate. reflexivity.
Qed.

Lemma copy_same_length (dst src : list Z) :
  length dst = length src -> copy dst src = src.
Proof.
  intros H. unfold copy. rewrite H, firstn_all, <- H, drop_all, app_nil_r. reflexivity.
Qed.

Lemma copy_at_tail (data tl src : list Z) :
  length tl = length src ->
  copy_at (data ++ tl) (length data) src = data ++ src.
Proof.
  intros H. unfold copy_at.
  rewrite take_app_length, drop_app_length, copy_same_length by exact H.
  reflexivity.
Qed.

Lemma padded_short (data : list Z) :
  (length data <= 512)%nat -> padded data = data ++ replicate (512 - length data) 0.
Proof.
  intros H. unfold padded. rewrite take_ge by lia. reflexivity.
Qed.

Lemma padded_full (data : list Z) :
  (512 <= length data)%nat -> padded data = take 512 data.
Proof.
  intros H. unfold padded.
  replace (512 - length data)%nat with 0%nat by lia.
  apply app_nil_r.
Qed.

Lemma length_padded (data : list Z) : length (padded data) = 512%nat.
Proof.
  unfold padded. rewrite length_app, length_take, length_replicate. lia.
Qed.

Lemma slice_zero_fill (n : nat) :
  (n <= 512)%nat -> slice (replicate 512 0) 0 n = Ret (replicate n 0).
Proof.
  intros H. unfold slice.
  case_decide as Hn.
  - rewrite drop_0, Nat.sub_0_r, take_replicate, Nat.min_l by lia. reflexivity.
  - exfalso. apply Hn. rewrite length_replicate. lia.
Qed.

Lemma copy_at_cons (x : Z) (l : list Z) (n : nat) (src : list Z) :
  copy_at (x :: l) (S n) src = x :: copy_at l n src.
Proof. reflexivity. Qed.

(** ** The low-level write *)

Ltac run := unfold orReturn, bind, ret, lift, gets, modify, raise; cbv beta iota.

Section Transport.

Variable GOOS : string.

(** [cmdWrite] hands exactly one report to the HID handle, [report] of the
    chunk, whatever the handle answers. *)
Lemma cmdWrite_report (data : list Z) (d : Device) :
  zero d = replicate 512 0 ->
  String.eqb GOOS "windows" = true \/ data <> [] ->
  cmdWrite GOOS data d = Write (report GOOS data) d.
Proof.
  intros Hz Hne. unfold cmdWrite, report, withReportID.
  destruct (String.eqb GOOS "windows") eqn:EW.
  - run. change (negb true && _) with false. cbv beta iota.
    rewrite copy_zeros.
    destruct (length data <? 512)%nat eqn:EL; [| reflexivity].
    apply Nat.ltb_lt in EL.
    rewrite Hz, slice_zero_fill by lia. cbv beta iota.
    rewrite (take_ge data) by lia.
    rewrite copy_at_tail by reflexivity.
    rewrite padded_short by lia. reflexivity.
  - destruct Hne as [Hne | Hne]; [discriminate |].
    destruct data as [| first rest]; [contradiction |].
    change (index_at (first :: rest) 0) with (Ret (A:=Z) first).
    change (negb false && (first =? 0)) with (first =? 0).
    remember (first :: rest) as chunk eqn:Ec.
    run. destruct (first =? 0) eqn:E0; cbv beta iota.
    + change (store (replicate 513 0) 0 0) with (Ret (0 :: replicate 512 0)).
      cbv beta iota.
      change (copy_at (0 :: replicate 512 0) 1 chunk)
        with (0 :: copy (replicate 512 0) chunk).
      rewrite copy_zeros.
      destruct (length chunk + 1 <? 513)%nat eqn:EL.
      * apply Nat.ltb_lt in EL.
        rewrite Hz, slice_zero_fill by lia. cbv beta iota.
        rewrite Nat.add_1_r, copy_at_cons, (take_ge chunk) by lia.
        rewrite copy_at_tail by (rewrite !length_replicate; lia).
        rewrite padded_short by lia.
        replace (513 - 1 - length chunk)%nat with (512 - length chunk)%nat by lia.
        reflexivity.
      * reflexivity.
    + rewrite copy_zeros.
      destruct (length chunk <? 512)%nat eqn:EL; [| reflexivity].
      apply Nat.ltb_lt in EL.
      rewrite Hz, slice_zero_fill by lia. cbv beta iota.
      rewrite (take_ge chunk) by lia.
      rewrite copy_at_tail by reflexivity.
      rewrite padded_short by lia. reflexivity.
Qed.

(** A report handed to [Write] can be read back from the state. *)
Lemma Write_inj (r1 r2 : list Z) (d : Device) : Write r1 d = Write r2 d -> r1 = r2.
Proof.
  intros H. apply (f_equal (fun x => written (device (snd x)))) in H.
  cbn in H. apply app_inv_head in H. congruence.
Qed.

Lemma length_report (data : list Z) :
  length (report GOOS data) = if withReportID GOOS data then 513%nat else 512%nat.
Proof.
  unfold report. destruct (withReportID GOOS data); cbn [length];
    rewrite length_padded; reflexivity.
Qed.

(** ** The chunked transport *)

Lemma window_nonempty (data : list Z) (k : nat) :
  (512 * k < length data)%nat -> window data k <> [].
Proof.
  intros H E. apply (f_equal length) in E.
  unfold window in E. rewrite length_take, length_drop in E. cbn [length] in E. lia.
Qed.

Lemma nwindows_lt (data : list Z) (k : nat) :
  (512 * k < length data)%nat <-> (k < nwindows data)%nat.
Proof.
  unfold nwindows.
  pose proof (Nat.div_mod_eq (length data + 511) 512) as Hq.
  pose proof (Nat.mod_upper_bound (length data + 511) 512) as Hr.
  lia.
Qed.

(** The chunk the loop cuts at offset [512 * k] is the [k]-th window. *)
Lemma loop_chunk (data : list Z) (k : nat) :
  (512 * k < length data)%nat ->
  (if (512 * k + 512 <? length data)%nat
   then slice data (512 * k) (512 * k + 512)
   else slice data (512 * k) (length data)) = Ret (window data k).
Proof.
  intros H. unfold slice, window.
  destruct (512 * k + 512 <? length data)%nat eqn:E.
  - apply Nat.ltb_lt in E. case_decide as Hb; [| lia].
    f_equal. f_equal. lia.
  - apply Nat.ltb_ge in E. case_decide as Hb; [| lia].
    f_equal. rewrite !take_ge by (rewrite length_drop; lia). reflexivity.
Qed.

(** The loop is the sequence of writes of the reports of the windows. *)
Lemma writeChunks_from_as_writes (data : list Z) :
  forall (fuel k : nat) (d : Device),
    zero d = replicate 512 0 ->
    (nwindows data - k < fuel)%nat ->
    writeChunks_from GOOS fuel data (512 * k) d
    = write_all (map (report GOOS) (map (window data) (seq k (nwindows data - k)))) d.
Proof.
  induction fuel as [| fuel IH]; intros k d Hz Hf; [lia |].
  cbn [writeChunks_from].
  destruct (512 * k <? length data)%nat eqn:E.
  - apply Nat.ltb_lt in E. pose proof (proj1 (nwindows_lt data k) E) as Hk.
    replace (nwindows data - k)%nat with (S (nwindows data - S k)) by lia.
    cbn [seq map write_all].
    rewrite loop_chunk by exact E.
    unfold orReturn, bind, lift. cbv beta iota.
    rewrite cmdWrite_report by (auto using window_nonempty).
    unfold Write. cbv beta iota.
    destruct (fails (device d) (length (written (device d)))); [reflexivity |].
    replace (512 * k + 512)%nat with (512 * S k)%nat by lia.
    apply IH; [exact Hz | lia].
  - apply Nat.ltb_ge in E.
    assert (~ (k < nwindows data)%nat) as Hk by (rewrite <- nwindows_lt; lia).
    replace (nwindows data - k)%nat with 0%nat by lia. reflexivity.
Qed.

Lemma writeChunks_as_writes (data : list Z) (d : Device) :
  zero d = replicate 512 0 ->
  writeChunks GOOS data d = write_all (map (report GOOS) (windows data)) d.
Proof.
  intros Hz. unfold writeChunks, windows.
  rewrite <- (Nat.sub_0_r (nwindows data)) at 1.
  change 0%nat with (512 * 0)%nat at 1.
  rewrite writeChunks_from_as_writes; [rewrite Nat.sub_0_r; reflexivity | exact Hz |].
  pose proof (proj2 (nwindows_lt data (length data))). lia.
Qed.

End Transport.

(** ** Reports written in a row *)

Lemma add_written_nil (d : Device) : add_written [] d = d.
Proof.
  destruct d as [? ? ? ? [w f] ? ? ? ? ? ? ? ?].
  unfold add_written, set_device. cbn. rewrite app_nil_r. reflexivity.
Qed.

Lemma add_written_app (a b : list (list Z)) (d : Device) :
  add_written b (add_written a d) = add_written (a ++ b) d.
Proof. unfold add_written, set_device. cbn. rewrite app_assoc. reflexivity. Qed.

Lemma transport_ok_add_written (rs : list (list Z)) (d : Device) :
  transport_ok d -> transport_ok (add_written rs d).
Proof. intros H k. apply H. Qed.

Lemma write_all_ok (rs : list (list Z)) :
  forall d, transport_ok d -> write_all rs d = (Ret None, add_written rs d).
Proof.
  induction rs as [| r rs IH]; intros d Hok.
  - cbn. unfold ret. rewrite add_written_nil. reflexivity.
  - cbn [write_all]. unfold orReturn, bind, Write. cbv beta iota.
    rewrite Hok. rewrite IH by (apply transport_ok_add_written; exact Hok).
    rewrite add_written_app. reflexivity.
Qed.

(** Whatever the transport answers, the reports written are an initial part
    of the list, all of it exactly when no error is returned; a run that
    returns an error has written the refused report last, and the error is
    the one of that write. *)
Lemma write_all_any (rs : list (list Z)) :
  forall d, exists m : nat,
    (m <= length rs)%nat /\
    ((write_all rs d = (Ret None, add_written (take m rs) d) /\ m = length rs) \/
     (write_all rs d
      = (Ret (Some (ErrWrite (length (written (device d)) + m - 1))),
         add_written (take m rs) d)
      /\ (0 < m)%nat)).
Proof.
  induction rs as [| r rs IH]; intros d.
  - exists 0%nat. split; [reflexivity |]. left. split; [| reflexivity].
    cbn. unfold ret. rewrite add_written_nil. reflexivity.
  - cbn [write_all]. unfold orReturn, bind, Write. cbv beta iota.
    destruct (fails (device d) (length (written (device d)))) eqn:Ef.
    + exists 1%nat. split; [cbn; lia |]. right. split; [| lia].
      cbn [take]. rewrite take_0.
      replace (length (written (device d)) + 1 - 1)%nat
        with (length (written (device d))) by lia.
      reflexivity.
    + destruct (IH (add_written [r] d)) as (m & Hm & [[H1 H2] | [H1 H2]]).
      * exists (S m). split; [cbn; lia |]. left. split; [| cbn; lia].
        rewrite H1, add_written_app. reflexivity.
      * exists (S m). split; [cbn; lia |]. right. split; [| lia].
        rewrite H1, add_written_app. cbn [written device add_written set_device].
        rewrite length_app. cbn [length].
        replace (length (written (device d)) + 1 + m - 1)%nat
          with (length (written (device d)) + S m - 1)%nat by lia.
        reflexivity.
Qed.

(** ** Frames in the transmit buffer *)

Lemma set_cmd_set_cmd (c1 c2 : list Z) (d : Device) :
  set_cmd c2 (set_cmd c1 d) = set_cmd c2 d.
Proof. reflexivity. Qed.

Lemma session_ok_set_cmd (c : list Z) (d : Device) :
  session_ok d -> length c = 512%nat -> session_ok (set_cmd c d).
Proof. intros [_ Hz] Hc. split; [exact Hc | exact Hz]. Qed.

Lemma session_ok_add_written (rs : list (list Z)) (d : Device) :
  session_ok d -> session_ok (add_written rs d).
Proof. intros H. exact H. Qed.

(** Zero-filling the buffer, copying a header and setting one byte leaves
    the frame [f] in the buffer, when [f] is what these steps make of 512
    zero bytes. *)
Lemma build_frame {A : Type} (header : list Z) (i : nat) (v : Z) (f : list Z)
    (k : M A) (d : Device) :
  session_ok d ->
  store (copy (replicate 512 0) header) i v = Ret f ->
  (zero_cmd ;; copy_cmd header ;; store_cmd i v ;; k) d = k (set_cmd f d).
Proof.
  intros [Hc Hz] Hf.
  unfold zero_cmd, copy_cmd, store_cmd, bind, modify, gets, lift. cbv beta iota.
  cbn [cmd zero set_cmd].
  rewrite Hz, (copy_same_length (cmd d)) by (rewrite length_replicate; exact Hc).
  rewrite Hf. reflexivity.
Qed.

Lemma store_LIG (b : Z) :
  store (copy (replicate 512 0) header_LIG) 10 b = Ret (frame_LIG b).
Proof. vm_compute. reflexivity. Qed.

Lemma store_CLE (t : Z) :
  store (copy (replicate 512 0) header_CLE) 11 t = Ret (frame_CLE t).
Proof. vm_compute. reflexivity. Qed.

Lemma store_BAT (t : Z) :
  store (copy (replicate 512 0) header_BAT) 12 t
  = Ret (take 12 header_BAT ++ t :: replicate 499 0).
Proof. vm_compute. reflexivity. Qed.

Lemma PutUint32_BAT (t : Z) (size : nat) :
  PutUint32 (take 12 header_BAT ++ t :: replicate 499 0) 8 (uint32 (Z.of_nat size))
  = Ret (frame_BAT t size).
Proof.
  unfold PutUint32, frame_BAT.
  generalize (uint8 (uint32 (Z.of_nat size))),
             (uint8 (Z.shiftr (uint32 (Z.of_nat size)) 8)),
             (uint8 (Z.shiftr (uint32 (Z.of_nat size)) 16)),
             (uint8 (Z.shiftr (uint32 (Z.of_nat size)) 24)).
  intros b3 b2 b1 b0. vm_compute. reflexivity.
Qed.

Lemma length_frame_LIG (b : Z) : length (frame_LIG b) = 512%nat.
Proof. reflexivity. Qed.
Lemma length_frame_CLE (t : Z) : length (frame_CLE t) = 512%nat.
Proof. reflexivity. Qed.
Lemma length_frame_BAT (t : Z) (size : nat) : length (frame_BAT t size) = 512%nat.
Proof. reflexivity. Qed.

(** A frame starts with the byte 0x43, so it is written as it is. *)
Lemma report_of_frame (GOOS : string) (f rest : list Z) :
  f = 0x43 :: rest -> length f = 512%nat -> report GOOS f = f.
Proof.
  intros Hf Hl. unfold report, withReportID. rewrite Hf at 1.
  change (0x43 =? 0) with false. rewrite andb_false_r.
  rewrite padded_full, take_ge by lia. reflexivity.
Qed.

(** ** Retries *)

Lemma retry_Do_first_try (f : M (option error)) (h : nat -> error -> M unit)
    (more : nat) (d d' : Device) :
  f d = (Ret None, d') -> retry_Do f h (S more) d = (Ret None, d').
Proof.
  intros H. unfold retry_Do. destruct more; cbn [retry_attempts];
    unfold bind; rewrite H; reflexivity.
Qed.

(** Three attempts, spelled out. *)
Lemma retry_Do_3 (f : M (option error)) (h : nat -> error -> M unit) (d : Device) :
  retry_Do f h 3 d =
  (err <- f ;;
   match err with
   | None => ret None
   | Some e1 =>
       h 0%nat e1 ;;
       err <- f ;;
       match err with
       | None => ret None
       | Some e2 =>
           h 1%nat e2 ;;
           err <- f ;;
           match err with
           | None => ret None
           | Some e3 => h 2%nat e3 ;; ret (Some (ErrAttempts [e1; e2; e3]))
           end
       end
   end) d.
Proof. reflexivity. Qed.

(** ** Claims on the transport *)

Section TransportClaims.

Variable GOOS : string.

(** C1, as amended.  For a non-empty chunk of at most 512 bytes, the framing
    follows from the platform and the first byte of the chunk: on Windows,
    and on every platform when the first byte is not zero, the chunk is
    written as it is, zero-padded to 512 bytes; elsewhere a chunk that
    starts with a zero byte is written behind a 0x00 report-ID byte,
    zero-padded to 513 bytes.  Exactly one report is written. *)
Theorem cmdWrite_framing (first : Z) (rest : list Z) (d : Device) :
  session_ok d ->
  (length (first :: rest) <= 512)%nat ->
  let data := first :: rest in
  let zeros := replicate (512 - length data) 0 in
  (String.eqb GOOS "windows" = true \/ first <> 0 ->
     cmdWrite GOOS data d = Write (data ++ zeros) d /\
     length (data ++ zeros) = 512%nat) /\
  (String.eqb GOOS "windows" = false /\ first = 0 ->
     cmdWrite GOOS data d = Write (0x00 :: data ++ zeros) d /\
     length (0x00 :: data ++ zeros) = 513%nat).
Proof.
  intros [_ Hz] Hl data zeros.
  change (length data <= 512)%nat in Hl.
  assert (Hw : cmdWrite GOOS data d = Write (report GOOS data) d)
    by (apply cmdWrite_report; [exact Hz | right; discriminate]).
  assert (Hp : padded data = data ++ zeros) by (apply padded_short; exact Hl).
  assert (Hlen : length (data ++ zeros) = 512%nat)
    by (unfold zeros; rewrite length_app, length_replicate; lia).
  split.
  - intros Hcase. split; [| exact Hlen].
    rewrite Hw. unfold report, withReportID, data at 1.
    destruct Hcase as [Hwin | Hne].
    + rewrite Hwin. cbn [negb andb]. rewrite Hp. reflexivity.
    + apply Z.eqb_neq in Hne. rewrite Hne, andb_false_r, Hp. reflexivity.
  - intros [Hwin H0]. split; [| cbn [length]; rewrite Hlen; reflexivity].
    rewrite Hw. unfold report, withReportID, data at 1.
    rewrite Hwin, H0. cbn [negb andb Z.eqb]. rewrite Hp. reflexivity.
Qed.

(** C2.  On a transport that accepts every report, sending an N-byte payload
    writes [ceil (N / 512)] reports, one per window and in order; each is 512
    bytes long, or 513 with a leading report-ID byte; every window but the
    last holds 512 payload bytes, and the report of the last window is its
    bytes followed by zeros only. *)
Theorem writeChunks_reports (data : list Z) (d : Device) :
  session_ok d ->
  transport_ok d ->
  exists reports : list (list Z),
    writeChunks GOOS data d = (Ret None, add_written reports d) /\
    Z.of_nat (length reports) = (Z.of_nat (length data) + 511) / 512 /\
    forall (k : nat) (r : list Z),
      reports !! k = Some r ->
      let w := window data k in
      ((r = padded w /\ length r = 512%nat) \/
       (r = 0x00 :: padded w /\ length r = 513%nat)) /\
      (S k < length reports -> length w = 512%nat /\ padded w = w)%nat /\
      (S k = length reports ->
         w = drop (512 * k) data /\
         padded w = w ++ replicate (512 - length w) 0).
Proof.
  intros [_ Hz] Hok. exists (map (report GOOS) (windows data)).
  assert (Hn : length (map (report GOOS) (windows data)) = nwindows data)
    by (unfold windows; rewrite !length_map, length_seq; reflexivity).
  split; [| split].
  - rewrite writeChunks_as_writes by exact Hz. apply write_all_ok. exact Hok.
  - rewrite Hn. unfold nwindows.
    rewrite Nat2Z.inj_div, Nat2Z.inj_add. reflexivity.
  - intros k r Hr w. rewrite Hn.
    unfold windows in Hr. rewrite !list_lookup_fmap in Hr.
    destruct (seq 0 (nwindows data) !! k) as [k' |] eqn:Hk; [| discriminate].
    apply lookup_seq in Hk as [-> Hlt]. cbn -[window report] in Hr. injection Hr as <-.
    fold w. apply nwindows_lt in Hlt.
    assert (Hw : length w = (512 `min` (length data - 512 * k))%nat)
      by (unfold w, window; rewrite length_take, length_drop; reflexivity).
    split; [| split].
    + unfold report. destruct (withReportID GOOS w);
        [right | left]; (split; [reflexivity |]); cbn [length];
        rewrite length_padded; reflexivity.
    + intros Hnext. apply nwindows_lt in Hnext.
      assert (length w = 512%nat) as Hfull by lia.
      split; [exact Hfull |].
      rewrite padded_full, take_ge by lia. reflexivity.
    + intros Hlast.
      assert (~ (512 * S k < length data)%nat) as Hend
        by (rewrite nwindows_lt; lia).
      split.
      * unfold w, window. apply take_ge. rewrite length_drop. lia.
      * apply padded_short. lia.
Qed.

End TransportClaims.

(** C1, counterexample.  On Linux the chunk [0] is written as a report of 513
    bytes and the chunk [1] as one of 512 bytes: no framing mode fixed by
    the platform gives both. *)
Lemma cmdWrite_framing_depends_on_chunk :
  ~ (forall GOOS : string, exists reportIDPlatform : bool,
       forall (data : list Z) (d : Device),
         session_ok d -> data <> [] -> (length data <= 512)%nat ->
         cmdWrite GOOS data d = Write (spec_report reportIDPlatform data) d).
Proof.
  intros H. destruct (H "linux") as [mode Hmode].
  assert (Hd : session_ok Sample.deck) by (split; reflexivity).
  pose proof (Hmode [0] Sample.deck Hd ltac:(discriminate) ltac:(cbn; lia)) as H0.
  pose proof (Hmode [1] Sample.deck Hd ltac:(discriminate) ltac:(cbn; lia)) as H1.
  rewrite cmdWrite_report in H0, H1 by (reflexivity || (right; discriminate)).
  apply Write_inj, (f_equal length) in H0.
  apply Write_inj, (f_equal length) in H1.
  destruct mode; vm_compute in H0, H1; discriminate.
Qed.

(** The chunk [0; 5] on Linux. *)
Lemma cmdWrite_framing_witness :
  session_ok Sample.deck /\
  cmdWrite "linux" [0; 5] Sample.deck = Write (0 :: [0; 5] ++ replicate 510 0) Sample.deck.
Proof.
  assert (Hd : session_ok Sample.deck) by (split; reflexivity).
  split; [exact Hd |].
  apply (cmdWrite_framing "linux" 0 [5] Sample.deck Hd); [cbn; lia |].
  split; reflexivity.
Defined.

(** A payload of 600 bytes: two reports. *)
Lemma writeChunks_reports_witness :
  session_ok Sample.deck /\ transport_ok Sample.deck /\
  exists reports : list (list Z),
    writeChunks "linux" (replicate 600 7) Sample.deck
    = (Ret None, add_written reports Sample.deck) /\
    Z.of_nat (length reports) = 2.
Proof.
  assert (Hd : session_ok Sample.deck) by (split; reflexivity).
  assert (Ht : transport_ok Sample.deck) by (intros k; reflexivity).
  split; [exact Hd |]. split; [exact Ht |].
  destruct (writeChunks_reports "linux" (replicate 600 7) Sample.deck Hd Ht)
    as (reports & Hrun & Hlen & _).
  exists reports. split; [exact Hrun |]. rewrite Hlen. reflexivity.
Defined.

(** ** Steps of a run *)

Lemma bind_gets {A B : Type} (f : Device -> A) (k : A -> M B) (d : Device) :
  (x <- gets f ;; k x) d = k (f d) d.
Proof. reflexivity. Qed.

Lemma bind_modify {B : Type} (f : Device -> Device) (k : M B) (d : Device) :
  (modify f ;; k) d = k (f d).
Proof. reflexivity. Qed.

Lemma bind_lift_Ret {A B : Type} (a : A) (k : A -> M B) (d : Device) :
  (x <- lift (Ret a) ;; k x) d = k a d.
Proof. reflexivity. Qed.

Lemma bind_ret {A B : Type} (a : A) (k : A -> M B) (d : Device) :
  (x <- ret a ;; k x) d = k a d.
Proof. reflexivity. Qed.

Lemma bind_run {A B : Type} (m : M A) (k : A -> M B) (d d' : Device) (a : A) :
  m d = (Ret a, d') -> (x <- m ;; k x) d = k a d'.
Proof. intros H. unfold bind. rewrite H. reflexivity. Qed.

Lemma check_run (m k : M (option error)) (d d' : Device) :
  m d = (Ret None, d') -> (check m ;; k) d = k d'.
Proof. intros H. unfold orReturn. rewrite (bind_run _ _ _ _ _ H). reflexivity. Qed.

Lemma check_stop (m k : M (option error)) (d d' : Device) (e : error) :
  m d = (Ret (Some e), d') -> (check m ;; k) d = (Ret (Some e), d').
Proof. intros H. unfold orReturn. rewrite (bind_run _ _ _ _ _ H). reflexivity. Qed.

Ltac step :=
  first [ rewrite bind_gets | rewrite bind_modify
        | rewrite bind_lift_Ret | rewrite bind_ret ];
  cbv beta zeta.

(** ** Commands on a transport that accepts every report *)

Section Commands.

Variable GOOS : string.

Lemma WriteRetry_ok (data : list Z) (d : Device) :
  zero d = replicate 512 0 ->
  transport_ok d ->
  String.eqb GOOS "windows" = true \/ data <> [] ->
  WriteRetry GOOS data d = (Ret None, add_written [report GOOS data] d).
Proof.
  intros Hz Hok Hne. unfold WriteRetry. apply retry_Do_first_try.
  rewrite cmdWrite_report by assumption. unfold Write. rewrite Hok. reflexivity.
Qed.

Lemma WriteRetry_cmd_ok (f rest : list Z) (d : Device) :
  session_ok d ->
  transport_ok d ->
  cmd d = f -> f = 0x43 :: rest ->
  WriteRetry_cmd GOOS d = (Ret None, add_written [f] d).
Proof.
  intros [Hc Hz] Hok Hf Hhd. unfold WriteRetry_cmd. step. rewrite Hf.
  rewrite WriteRetry_ok; [| exact Hz | exact Hok | right; rewrite Hhd; discriminate].
  rewrite (report_of_frame GOOS f rest Hhd) by (rewrite <- Hf; exact Hc).
  reflexivity.
Qed.

Lemma cmdLight_ok (b : Z) (d : Device) :
  session_ok d ->
  transport_ok d ->
  cmdLight GOOS b d
  = (Ret None, add_written [frame_LIG b] (set_cmd (frame_LIG b) d)).
Proof.
  intros Hs Hok. unfold cmdLight.
  rewrite (build_frame header_LIG 10 b (frame_LIG b)) by (auto using store_LIG).
  eapply WriteRetry_cmd_ok; [| exact Hok | reflexivity | reflexivity].
  apply session_ok_set_cmd; [exact Hs | reflexivity].
Qed.

Lemma cmdLightRetry_ok (b : Z) (d : Device) :
  session_ok d ->
  transport_ok d ->
  cmdLightRetry GOOS b 3 d
  = (Ret None, add_written [frame_LIG b] (set_cmd (frame_LIG b) d)).
Proof.
  intros Hs Hok. unfold cmdLightRetry. apply retry_Do_first_try.
  apply cmdLight_ok; assumption.
Qed.

(** [SetBrightness] when the hardware is to be set: the device is awake, or
    the percentage is 0. *)
Lemma SetBrightness_sets (percent : Z) (d : Device) :
  session_ok d ->
  transport_ok d ->
  asleep d && (clamp percent >? 0) = false ->
  SetBrightness GOOS percent d
  = (Ret None,
     add_written [frame_LIG (clamp percent)]
       (set_cmd (frame_LIG (clamp percent)) (set_brightness (clamp percent) d))).
Proof.
  intros Hs Hok Hcase. unfold SetBrightness. fold (clamp percent).
  cbv zeta. do 2 step. cbn [asleep set_brightness].
  rewrite Hcase. step. cbn [brightness set_brightness].
  apply cmdLightRetry_ok; assumption.
Qed.

(** [SetBrightness] while asleep with a percentage above 0: the value is
    stored and remembered, and nothing is written. *)
Lemma SetBrightness_defers (percent : Z) (d : Device) :
  asleep d = true ->
  clamp percent > 0 ->
  sleepMutex d = false ->
  SetBrightness GOOS percent d
  = (Ret None,
     set_preSleepBrightness (clamp percent) (set_brightness (clamp percent) d)).
Proof.
  intros Ha Hp Hm. unfold SetBrightness. fold (clamp percent).
  cbv zeta. do 2 step. cbn [asleep set_brightness]. rewrite Ha.
  replace (clamp percent >? 0) with true by (symmetry; apply Z.gtb_lt; lia).
  cbn [andb]. unfold lockSleep, unlockSleep, bind, modify, ret. cbn.
  rewrite Hm. unfold set_preSleepBrightness, set_brightness, set_sleepMutex. cbn.
  rewrite <- Hm. reflexivity.
Qed.

End Commands.

(** ** Retried commands on any transport *)

Lemma set_cmd_add_written (c : list Z) (rs : list (list Z)) (d : Device) :
  set_cmd c (add_written rs d) = add_written rs (set_cmd c d).
Proof. reflexivity. Qed.

(** An operation that writes one report [F] one or more times, and at most
    [c] times, writes it between once and [3 * c] times when it is retried
    with three attempts.  [g] is what the operation does to the rest of the
    session. *)
Lemma retry_Do_3_repeats (f : M (option error)) (F : list Z) (c : nat)
    (g : Device -> Device) (P : Device -> Prop) :
  (forall d, P d -> exists (n : nat) (r : option error),
      (1 <= n <= c)%nat /\ f d = (Ret r, add_written (replicate n F) (g d))) ->
  (forall d rs, P d -> P (add_written rs (g d))) ->
  (forall d rs, g (add_written rs (g d)) = add_written rs (g d)) ->
  forall d, P d -> exists (n : nat) (r : option error),
      (1 <= n <= 3 * c)%nat /\
      retry_Do f noHook 3 d = (Ret r, add_written (replicate n F) (g d)).
Proof.
  intros Hf HP Hg d Hd. rewrite retry_Do_3.
  destruct (Hf d Hd) as (n1 & r1 & Hn1 & H1). rewrite (bind_run _ _ _ _ _ H1).
  destruct r1 as [e1 |]; [| exists n1, None; split; [lia | reflexivity]].
  unfold noHook at 1. step.
  pose proof (HP d (replicate n1 F) Hd) as Hd1.
  destruct (Hf _ Hd1) as (n2 & r2 & Hn2 & H2). rewrite (bind_run _ _ _ _ _ H2).
  rewrite Hg, add_written_app, <- replicate_add in *.
  destruct r2 as [e2 |]; [| exists (n1 + n2)%nat, None; split; [lia | reflexivity]].
  unfold noHook at 1. step.
  pose proof (HP d (replicate (n1 + n2) F) Hd) as Hd2.
  destruct (Hf _ Hd2) as (n3 & r3 & Hn3 & H3). rewrite (bind_run _ _ _ _ _ H3).
  rewrite Hg, add_written_app, <- replicate_add.
  destruct r3 as [e3 |].
  - unfold noHook. step. eexists (n1 + n2 + n3)%nat, _. split; [lia | reflexivity].
  - exists (n1 + n2 + n3)%nat, None. split; [lia | reflexivity].
Qed.

Section RetriedCommands.

Variable GOOS : string.

Lemma WriteRetry_any (data : list Z) (d : Device) :
  zero d = replicate 512 0 ->
  String.eqb GOOS "windows" = true \/ data <> [] ->
  exists (n : nat) (r : option error),
    (1 <= n <= 3)%nat /\
    WriteRetry GOOS data d = (Ret r, add_written (replicate n (report GOOS data)) d).
Proof.
  intros Hz Hne. unfold WriteRetry.
  apply (retry_Do_3_repeats (cmdWrite GOOS data) (report GOOS data) 1
           (fun d => d) (fun d => zero d = replicate 512 0)).
  - intros d' Hz'. exists 1%nat. eexists. split; [lia |].
    rewrite cmdWrite_report by assumption. reflexivity.
  - intros d' rs Hz'. exact Hz'.
  - reflexivity.
  - exact Hz.
Qed.

(** A command that builds the frame [f] and sends it with [WriteRetry]. *)
Lemma frame_command_any (header : list Z) (i : nat) (v : Z) (f rest : list Z)
    (d : Device) :
  session_ok d ->
  store (copy (replicate 512 0) header) i v = Ret f ->
  f = 0x43 :: rest -> length f = 512%nat ->
  exists (n : nat) (r : option error),
    (1 <= n <= 3)%nat /\
    (zero_cmd ;; copy_cmd header ;; store_cmd i v ;; WriteRetry_cmd GOOS) d
    = (Ret r, add_written (replicate n f) (set_cmd f d)).
Proof.
  intros Hs Hst Hhd Hlen. rewrite (build_frame header i v f) by assumption.
  unfold WriteRetry_cmd. step. cbn [cmd set_cmd].
  destruct (WriteRetry_any f (set_cmd f d)) as (n & r & Hn & Hw);
    [apply Hs | right; rewrite Hhd; discriminate |].
  exists n, r. split; [exact Hn |].
  rewrite Hw, (report_of_frame GOOS f rest Hhd Hlen). reflexivity.
Qed.

Lemma cmdLight_any (b : Z) (d : Device) :
  session_ok d ->
  exists (n : nat) (r : option error),
    (1 <= n <= 3)%nat /\
    cmdLight GOOS b d = (Ret r, add_written (replicate n (frame_LIG b)) (set_cmd (frame_LIG b) d)).
Proof.
  intros Hs. unfold cmdLight.
  eapply frame_command_any; [exact Hs | apply store_LIG | reflexivity | reflexivity].
Qed.

Lemma cmdLightRetry_any (b : Z) (d : Device) :
  session_ok d ->
  exists (n : nat) (r : option error),
    (1 <= n <= 9)%nat /\
    cmdLightRetry GOOS b 3 d
    = (Ret r, add_written (replicate n (frame_LIG b)) (set_cmd (frame_LIG b) d)).
Proof.
  intros Hs. unfold cmdLightRetry.
  apply (retry_Do_3_repeats (cmdLight GOOS b) (frame_LIG b) 3
           (set_cmd (frame_LIG b)) session_ok).
  - intros d' Hs'. apply cmdLight_any. exact Hs'.
  - intros d' rs Hs'. apply session_ok_add_written, session_ok_set_cmd;
      [exact Hs' | reflexivity].
  - reflexivity.
  - exact Hs.
Qed.

(** The clear-slot command writes its frame between one and three times; the
    byte at offset 11 is the mapped target, 0xff standing for itself. *)
Lemma cmdClear_any (target : Z) (d : Device) :
  session_ok d ->
  exists (n : nat) (r : option error),
    (1 <= n <= 3)%nat /\
    cmdClear GOOS target d
    = (Ret r, add_written (replicate n (frame_CLE (elgato_to_ajazz target (Columns d))))
                (set_cmd (frame_CLE (elgato_to_ajazz target (Columns d))) d)).
Proof.
  intros Hs. unfold cmdClear. step.
  assert (Ht : (if negb (target =? 255) then elgato_to_ajazz target (Columns d) else target)
               = elgato_to_ajazz target (Columns d)).
  { destruct (target =? 255) eqn:E; [| reflexivity].
    apply Z.eqb_eq in E. subst target. reflexivity. }
  rewrite Ht.
  eapply frame_command_any; [exact Hs | apply store_CLE | reflexivity | reflexivity].
Qed.

End RetriedCommands.

(** ** Brightness, sleep and wake *)

Lemma lockSleep_free (d : Device) :
  sleepMutex d = false -> lockSleep d = (Ret tt, set_sleepMutex true d).
Proof. intros H. unfold lockSleep. rewrite H. reflexivity. Qed.

Lemma withSleepMutex_run (body : M (option error)) (d d' : Device) (r : option error) :
  sleepMutex d = false ->
  body (set_sleepMutex true d) = (Ret r, d') ->
  withSleepMutex body d = (Ret r, set_sleepMutex false d').
Proof.
  intros Hm Hb. unfold withSleepMutex.
  rewrite (bind_run _ _ _ _ _ (lockSleep_free d Hm)).
  rewrite (bind_run _ _ _ _ _ Hb). reflexivity.
Qed.

Ltac conjuncts := repeat match goal with |- _ /\ _ => split end.

Section Brightness.

Variable GOOS : string.
Variable fadeTicks : Z -> Z -> Z -> list Z.

(** A fade of a device that is awake, on a transport that accepts every
    report, runs to its end; it changes the stored brightness, the
    transmit buffer and the reports written, nothing else. *)
Lemma Fade_over_awake (ticks : list Z) :
  forall d,
    session_ok d -> transport_ok d -> asleep d = false ->
    exists d',
      Fade_over GOOS ticks d = (Ret None, d') /\
      session_ok d' /\ transport_ok d' /\ asleep d' = false /\
      preSleepBrightness d' = preSleepBrightness d /\
      sleepMutex d' = sleepMutex d /\
      fadeDuration d' = fadeDuration d.
Proof.
  induction ticks as [| current rest IH]; intros d Hs Ht Ha.
  - exists d. conjuncts; (assumption || reflexivity).
  - cbn [Fade_over].
    assert (Hset := SetBrightness_sets GOOS current d Hs Ht).
    rewrite Ha in Hset. specialize (Hset eq_refl).
    rewrite (check_run _ _ _ _ Hset).
    match goal with |- context [Fade_over GOOS rest ?d1] =>
      destruct (IH d1) as (d' & Hrun & Hs' & Ht' & Ha' & Hp' & Hm' & Hd')
    end.
    + apply session_ok_add_written, session_ok_set_cmd; [exact Hs | reflexivity].
    + exact Ht.
    + exact Ha.
    + exists d'. conjuncts; assumption.
Qed.

(** C8, as amended.  While the device is asleep, [SetBrightness] with a
    percentage above 0 stores the clamped value as the brightness and as the
    remembered pre-sleep brightness, leaves the rest of the session as it is
    and writes nothing; in every other case the set-light frame, which holds
    the clamped value at offset 10, is written at once (again on failure, up
    to nine times in all). *)
Theorem SetBrightness_cases (percent : Z) (d : Device) :
  session_ok d ->
  sleepMutex d = false ->
  (asleep d = true /\ percent > 0 ->
     SetBrightness GOOS percent d
     = (Ret None,
        set_preSleepBrightness (clamp percent) (set_brightness (clamp percent) d))) /\
  (asleep d = false \/ percent <= 0 ->
     frame_LIG (clamp percent) !! 10%nat = Some (clamp percent) /\
     exists (n : nat) (r : option error),
       (1 <= n <= 9)%nat /\
       SetBrightness GOOS percent d
       = (Ret r,
          add_written (replicate n (frame_LIG (clamp percent)))
            (set_cmd (frame_LIG (clamp percent))
               (set_brightness (clamp percent) d)))).
Proof.
  intros Hs Hm. split.
  - intros [Ha Hp]. apply SetBrightness_defers; [exact Ha | | exact Hm].
    unfold clamp. destruct (percent >? 100); lia.
  - intros Hcase. split; [reflexivity |].
    unfold SetBrightness. fold (clamp percent). cbv zeta.
    do 2 step. cbn [asleep set_brightness].
    assert (Hoff : asleep d && (clamp percent >? 0) = false).
    { destruct Hcase as [Ha | Hp]; [rewrite Ha; reflexivity |].
      apply andb_false_iff. right. unfold clamp.
      destruct (percent >? 100) eqn:E; [apply Z.gtb_lt in E |]; lia. }
    rewrite Hoff. step. cbn [brightness set_brightness].
    apply cmdLightRetry_any. exact Hs.
Qed.

(** C7.  From a device that is awake, on a transport that accepts every
    report, [Sleep] returns without error with the device asleep, and a
    [Wake] right after it returns without error with the device awake and
    the stored brightness back at the value held before [Sleep]; the last
    report written is the set-light frame of that value. *)
Theorem Sleep_then_Wake (now : Z) (d : Device) :
  session_ok d ->
  transport_ok d ->
  asleep d = false ->
  sleepMutex d = false ->
  brightness d <= 100 ->
  exists d1 d2,
    Sleep GOOS fadeTicks d = (Ret None, d1) /\
    asleep d1 = true /\
    Wake GOOS fadeTicks now d1 = (Ret None, d2) /\
    asleep d2 = false /\
    brightness d2 = brightness d /\
    last (written (device d2)) = Some (frame_LIG (brightness d)).
Proof.
  intros Hs Ht Ha Hm Hb.
  (* Sleep: the fade down *)
  destruct (Fade_over_awake (fadeTicks (brightness d) 0 (fadeDuration d))
              (set_preSleepBrightness (brightness d) (set_sleepMutex true d))
              Hs Ht Ha)
    as (da & Hfa & Hsa & Hta & Haa & Hpa & Hma & Hda).
  cbn [preSleepBrightness sleepMutex fadeDuration set_preSleepBrightness
       set_sleepMutex] in Hpa, Hma, Hda.
  assert (Hdark := SetBrightness_sets GOOS 0 (set_asleep true da) Hsa Hta
                     (andb_false_r _)).
  change (clamp 0) with 0 in Hdark.
  set (db := add_written [frame_LIG 0]
               (set_cmd (frame_LIG 0) (set_brightness 0 (set_asleep true da)))) in *.
  assert (HSleep : Sleep GOOS fadeTicks d = (Ret None, set_sleepMutex false db)).
  { unfold Sleep. apply withSleepMutex_run; [exact Hm |].
    do 4 step. cbn [brightness fadeDuration set_preSleepBrightness set_sleepMutex].
    unfold Fade. rewrite (check_run _ _ _ _ Hfa). step. exact Hdark. }
  (* Wake: the fade up *)
  set (d1 := set_sleepMutex false db) in *.
  assert (Hs1 : session_ok d1)
    by (apply session_ok_set_cmd; [exact Hsa | reflexivity]).
  assert (Hp1 : preSleepBrightness d1 = brightness d) by exact Hpa.
  assert (Hd1 : fadeDuration d1 = fadeDuration da) by reflexivity.
  destruct (Fade_over_awake (fadeTicks 0 (brightness d) (fadeDuration d1))
              (set_asleep false (set_sleepMutex true d1)) Hs1 Hta eq_refl)
    as (dc & Hfc & Hsc & Htc & Hac & Hpc & Hmc & Hdc).
  cbn [preSleepBrightness set_asleep set_sleepMutex] in Hpc.
  assert (Hlit := SetBrightness_sets GOOS (brightness d)
                    (set_lastActionTime now dc) Hsc Htc).
  cbn [asleep set_lastActionTime] in Hlit. rewrite Hac in Hlit.
  specialize (Hlit eq_refl).
  assert (Hcl : clamp (brightness d) = brightness d).
  { unfold clamp. destruct (brightness d >? 100) eqn:E; [| reflexivity].
    apply Z.gtb_lt in E. lia. }
  rewrite Hcl in Hlit.
  eexists d1, _. split; [exact HSleep |]. split; [reflexivity |].
  split; [| split; [| split]].
  - unfold Wake. apply withSleepMutex_run; [reflexivity |].
    do 3 step.
    cbn [preSleepBrightness fadeDuration set_asleep set_sleepMutex].
    rewrite Hp1. unfold Fade. rewrite (check_run _ _ _ _ Hfc).
    do 2 step. cbn [preSleepBrightness set_lastActionTime].
    rewrite Hpc, Hp1. exact Hlit.
  - exact Hac.
  - reflexivity.
  - cbn [written device set_sleepMutex add_written set_device].
    apply last_snoc.
Qed.

End Brightness.

(** ** Image upload *)

Section Upload.

Variable GOOS : string.

(** One attempt of the upload: the batch frame is built in the transmit
    buffer, then the frame and the reports of the windows of the payload
    are written in a row. *)
Lemma cmdBatchRetry_func_as_writes (index : Z) (data : list Z) (d : Device) :
  session_ok d ->
  let f := frame_BAT (elgato_to_ajazz index (Columns d)) (length data) in
  cmdBatchRetry_func GOOS index data d
  = write_all (f :: map (report GOOS) (windows data)) (set_cmd f d).
Proof.
  intros Hs f. unfold cmdBatchRetry_func. step.
  rewrite (build_frame header_BAT 12 _ _ _ d Hs (store_BAT _)).
  cbv zeta. step. cbn [cmd set_cmd].
  rewrite PutUint32_BAT. do 3 step. cbn [cmd set_cmd]. fold f.
  cbn [write_all]. unfold orReturn, bind.
  rewrite cmdWrite_report by (apply Hs || (right; discriminate)).
  rewrite (report_of_frame GOOS f _ eq_refl eq_refl).
  unfold Write.
  destruct (fails _ _); [reflexivity |].
  apply writeChunks_as_writes. apply Hs.
Qed.

Lemma cmdBatchRetry_ok (index : Z) (data : list Z) (d : Device) :
  session_ok d ->
  transport_ok d ->
  let f := frame_BAT (elgato_to_ajazz index (Columns d)) (length data) in
  cmdBatchRetry GOOS index data 3 d
  = (Ret None, add_written (f :: map (report GOOS) (windows data)) (set_cmd f d)).
Proof.
  intros Hs Ht f. unfold cmdBatchRetry. apply retry_Do_first_try.
  rewrite cmdBatchRetry_func_as_writes by exact Hs.
  apply write_all_ok. exact Ht.
Qed.

Lemma upload_state (c1 c2 : list Z) (a b : list (list Z)) (d : Device) :
  add_written b (set_cmd c2 (add_written a (set_cmd c1 d)))
  = add_written (a ++ b) (set_cmd c2 d).
Proof. rewrite set_cmd_add_written, set_cmd_set_cmd, add_written_app. reflexivity. Qed.

Lemma length_written_add (rs : list (list Z)) (d : Device) :
  length (written (device (add_written rs d)))
  = (length (written (device d)) + length rs)%nat.
Proof. cbn. apply length_app. Qed.

(** The retry loop of an upload, entered with [more] further attempts
    allowed: some attempts fail, each followed by the clearing of the slot;
    then either an attempt succeeds, or the attempts are used up and the
    errors of all of them are returned. *)
Lemma retry_attempts_upload (index : Z) (data : list Z) (cols : Z) :
  let target := elgato_to_ajazz index cols in
  let f := frame_BAT target (length data) in
  let batch := f :: map (report GOOS) (windows data) in
  let clear := frame_CLE target in
  forall (more n : nat) (log : list error) (d : Device),
    session_ok d -> Columns d = cols ->
    exists failed : list (nat * nat),
      Forall (attempt_shape batch) failed /\
      ((length failed <= more)%nat /\
        retry_attempts more n (cmdBatchRetry_func GOOS index data)
          (fun n err => cmdClear GOOS index ;; ret tt) log d
        = (Ret None,
           add_written
             (fst (failed_attempts batch clear (length (written (device d))) failed)
              ++ batch)
             (set_cmd f d))
       \/
       (length failed = S more /\
        retry_attempts more n (cmdBatchRetry_func GOOS index data)
          (fun n err => cmdClear GOOS index ;; ret tt) log d
        = (Ret (Some (ErrAttempts
                  (log ++ snd (failed_attempts batch clear
                                 (length (written (device d))) failed)))),
           add_written
             (fst (failed_attempts batch clear (length (written (device d))) failed))
             (set_cmd clear d)))).
Proof.
  intros target f batch clear more.
  induction more as [| more IH]; intros n log d Hs Hc.
  all: cbn [retry_attempts].
  all: pose proof (cmdBatchRetry_func_as_writes index data d Hs) as Hatt;
    cbv zeta in Hatt; rewrite Hc in Hatt; fold target f batch in Hatt.
  all: destruct (write_all_any batch (set_cmd f d))
         as (m & Hm & [[Hrun Hall] | [Hrun Hpos]]);
    rewrite <- Hatt in Hrun; rewrite (bind_run _ _ _ _ _ Hrun).
  (* an attempt that succeeds *)
  1, 3: exists []; split; [constructor |]; left; split; [cbn; lia |];
    rewrite Hall, firstn_all; reflexivity.
  (* an attempt that fails: the slot is cleared *)
  all: destruct (cmdClear_any GOOS index (add_written (take m batch) (set_cmd f d)))
         as (k & r & Hk & Hclr);
    [apply session_ok_add_written, session_ok_set_cmd; [exact Hs | reflexivity] |];
    cbn [Columns add_written set_device set_cmd] in Hclr; rewrite Hc in Hclr;
    fold target clear in Hclr;
    change (mkDevice (Columns d) (Rows d) (Keys d) (Pixels d)
              (mkHid (written (device d) ++ take m batch) (fails (device d)))
              (lastActionTime d) (asleep d) (sleepMutex d) (fadeDuration d)
              (brightness d) (preSleepBrightness d) f (zero d))
      with (add_written (take m batch) (set_cmd f d)) in Hclr;
    rewrite upload_state in Hclr;
    rewrite (bind_run _ _ _ _ _ (bind_run _ (fun _ => ret tt) _ _ _ Hclr)).
  - (* no attempt left *)
    exists [(m, k)]. split.
    + constructor; [split; cbn [fst snd]; lia | constructor].
    + right. split; [reflexivity |]. cbn [failed_attempts fst snd].
      rewrite app_nil_r. reflexivity.
  - (* a further attempt *)
    destruct (IH (S n) (log ++ [ErrWrite (length (written (device (set_cmd f d))) + m - 1)])
                (add_written (take m batch ++ replicate k clear) (set_cmd clear d)))
      as (failed & Hshape & Hcases).
    + apply session_ok_add_written, session_ok_set_cmd; [exact Hs | reflexivity].
    + exact Hc.
    + exists ((m, k) :: failed). split.
      * constructor; [split; cbn [fst snd]; lia | exact Hshape].
      * rewrite length_written_add in Hcases.
        cbn [failed_attempts fst snd length].
        change (length (written (device (set_cmd clear d))))
          with (length (written (device d))) in Hcases.
        destruct Hcases as [[Hlen Hres] | [Hlen Hres]]; [left | right];
          (split; [lia |]); rewrite Hres.
        -- rewrite set_cmd_add_written, set_cmd_set_cmd, add_written_app, <- !app_assoc.
           reflexivity.
        -- rewrite set_cmd_add_written, set_cmd_set_cmd, add_written_app, <- ?app_assoc.
           reflexivity.
Qed.

End Upload.

(** ** Claims on the upload of images and of the logo *)

Lemma retry_attempts_same_error (f : M (option error)) (e : error) (d : Device) :
  f d = (Ret (Some e), d) ->
  forall (more n : nat) (log : list error),
    retry_attempts more n f noHook log d
    = (Ret (Some (ErrAttempts (log ++ replicate (S more) e))), d).
Proof.
  intros Hf. induction more as [| more IH]; intros n log.
  - cbn [retry_attempts]. rewrite (bind_run _ _ _ _ _ Hf). reflexivity.
  - cbn [retry_attempts]. rewrite (bind_run _ _ _ _ _ Hf).
    unfold noHook at 1. step. rewrite IH, <- app_assoc. reflexivity.
Qed.

Section UploadClaims.

Variable GOOS : string.
Variable flipImage : Image -> Image.
Variable toImageFormat : Image -> list Z * option error.

(** [SetImage] when nothing fails: one attempt, the batch frame and the
    reports of the windows of the encoded image. *)
Lemma SetImage_ok (index : Z) (img : Image) (imageBytes : list Z) (d : Device) :
  session_ok d ->
  transport_ok d ->
  Dx img = Pixels d ->
  Dy img = Pixels d ->
  toImageFormat (flipImage img) = (imageBytes, None) ->
  let frame := frame_BAT (elgato_to_ajazz index (Columns d)) (length imageBytes) in
  SetImage GOOS flipImage toImageFormat index img d
  = (Ret None,
     add_written (frame :: map (report GOOS) (windows imageBytes)) (set_cmd frame d)).
Proof.
  intros Hs Ht Hx Hy Henc frame.
  unfold SetImage. step. rewrite Hx, Hy, Z.eqb_refl. cbn [negb orb].
  rewrite Henc.
  rewrite (bind_run _ _ _ _ _ (cmdBatchRetry_ok GOOS index imageBytes d Hs Ht)).
  reflexivity.
Qed.

(** C3, as amended.  On a transport that accepts every report, [SetImage]
    with an image of the size of a key, which the encoder accepts, returns
    without error after writing one batch frame, whose byte at offset 12 is
    the key index mapper applied to the index itself (0-based: index 0 is
    mapped to slot 13, the top-left key), and then the [ceil (N / 512)]
    reports of the N encoded bytes, and nothing else. *)
Theorem SetImage_upload (index : Z) (img : Image) (imageBytes : list Z) (d : Device) :
  session_ok d ->
  transport_ok d ->
  Dx img = Pixels d ->
  Dy img = Pixels d ->
  toImageFormat (flipImage img) = (imageBytes, None) ->
  let target := elgato_to_ajazz index (Columns d) in
  let frame := frame_BAT target (length imageBytes) in
  let chunks := map (report GOOS) (windows imageBytes) in
  SetImage GOOS flipImage toImageFormat index img d
  = (Ret None, add_written (frame :: chunks) (set_cmd frame d)) /\
  take 8 frame = take 8 header_BAT /\
  frame !! 12%nat = Some target /\
  Z.of_nat (length chunks) = (Z.of_nat (length imageBytes) + 511) / 512 /\
  elgato_to_ajazz 0 (Columns d) = 13.
Proof.
  intros Hs Ht Hx Hy Henc target frame chunks.
  split; [| split; [reflexivity | split; [reflexivity | split; [| reflexivity]]]].
  - apply SetImage_ok; assumption.
  - unfold chunks, windows. rewrite !length_map, length_seq. unfold nwindows.
    rewrite Nat2Z.inj_div, Nat2Z.inj_add. reflexivity.
Qed.

(** C5.  An upload with three attempts, on any transport: each failed
    attempt is followed by the clear-slot frame of the target, written one
    to three times, before the batch is sent again; after fewer than three
    failed attempts the batch is written in full and no error is returned;
    after three, the error returned lists the errors of the three attempts,
    the last one last. *)
Theorem cmdBatchRetry_clears_before_retry (index : Z) (data : list Z) (d : Device) :
  session_ok d ->
  let target := elgato_to_ajazz index (Columns d) in
  let f := frame_BAT target (length data) in
  let batch := f :: map (report GOOS) (windows data) in
  let clear := frame_CLE target in
  clear !! 11%nat = Some target /\
  exists failed : list (nat * nat),
    Forall (attempt_shape batch) failed /\
    let start := length (written (device d)) in
    let past := fst (failed_attempts batch clear start failed) in
    let errors := snd (failed_attempts batch clear start failed) in
    length errors = length failed /\
    (((length failed < 3)%nat /\
      cmdBatchRetry GOOS index data 3 d
      = (Ret None, add_written (past ++ batch) (set_cmd f d)))
     \/
     (length failed = 3%nat /\
      cmdBatchRetry GOOS index data 3 d
      = (Ret (Some (ErrAttempts errors)), add_written past (set_cmd clear d)))).
Proof.
  intros Hs target f batch clear. split; [reflexivity |].
  destruct (retry_attempts_upload GOOS index data (Columns d) 2 0 [] d Hs eq_refl)
    as (failed & Hshape & Hcases).
  exists failed. split; [exact Hshape |].
  cbv zeta. split.
  - clear. generalize (length (written (device d))).
    induction failed as [| [m n] failed IH]; intros start; [reflexivity |].
    cbn [failed_attempts snd length]. rewrite IH. reflexivity.
  - unfold cmdBatchRetry, retry_Do.
    destruct Hcases as [[Hlen Hres] | [Hlen Hres]]; [left | right];
      (split; [lia | exact Hres]).
Qed.

(** C6, as amended.  A logo payload of another length than 854 x 480 x 3 makes
    [cmdLogo] return the validation error with nothing written; under its
    retry wrapper the check is run again at each attempt, and the error
    returned lists the validation error once per attempt, still with
    nothing written.  An image of another size than that of a key makes
    [SetImage] return the validation error itself, at once, with nothing
    written and nothing retried. *)
Theorem validation_errors (data : list Z) (index : Z) (img : Image) (d : Device) :
  (Z.of_nat (length data) <> 854 * 480 * 3 ->
     cmdLogo GOOS data d = (Ret (Some (ErrInvalidDataLength (length data))), d) /\
     forall more : nat,
       cmdLogoRetry GOOS data (S more) d
       = (Ret (Some (ErrAttempts
                 (replicate (S more) (ErrInvalidDataLength (length data))))), d)) /\
  (Dy img <> Pixels d \/ Dx img <> Pixels d ->
     SetImage GOOS flipImage toImageFormat index img d
     = (Ret (Some (ErrWrongDimensions (Pixels d))), d)).
Proof.
  split.
  - intros Hlen.
    assert (Hlogo : cmdLogo GOOS data d
                    = (Ret (Some (ErrInvalidDataLength (length data))), d)).
    { unfold cmdLogo. apply Z.eqb_neq in Hlen. rewrite Hlen. reflexivity. }
    split; [exact Hlogo |].
    intros more. unfold cmdLogoRetry, retry_Do.
    apply (retry_attempts_same_error _ _ _ Hlogo more 0%nat []).
  - intros Hdim. unfold SetImage. step.
    assert (Hbad : negb (Dy img =? Pixels d) || negb (Dx img =? Pixels d) = true).
    { apply orb_true_iff.
      destruct Hdim as [H | H]; [left | right];
        apply negb_true_iff, Z.eqb_neq; exact H. }
    rewrite Hbad. reflexivity.
Qed.

End UploadClaims.

(** ** Clearing the panel *)

Section ClearAll.

Variable GOOS : string.
Variable flipImage : Image -> Image.
Variable toImageFormat : Image -> list Z * option error.

(** The loop of [Clear], entered at [i] with enough fuel, uploads the image
    for every index from [i] to the bound [Columns * Rows], the bound
    included. *)
Lemma Clear_from_uploads (img : Image) (imageBytes : list Z) (cols : Z) :
  toImageFormat (flipImage img) = (imageBytes, None) ->
  let batch index :=
    frame_BAT (elgato_to_ajazz index cols) (length imageBytes)
    :: map (report GOOS) (windows imageBytes) in
  forall (fuel : nat) (i : Z) (d : Device),
    session_ok d -> transport_ok d ->
    Dx img = Pixels d -> Dy img = Pixels d -> Columns d = cols ->
    uint8 (Columns d * Rows d) < 255 ->
    0 <= i <= uint8 (Columns d * Rows d) + 1 ->
    (Z.to_nat (uint8 (Columns d * Rows d) + 1 - i) < fuel)%nat ->
    exists d',
      Clear_from GOOS flipImage toImageFormat fuel img i d = (Ret None, d') /\
      written (device d')
      = written (device d)
        ++ concat (map (fun k => batch (i + Z.of_nat k))
                       (seq 0 (Z.to_nat (uint8 (Columns d * Rows d) + 1 - i)))).
Proof.
  intros Henc batch. induction fuel as [| fuel IH];
    intros i d Hs Ht Hx Hy Hc Hb Hi Hf; [lia |].
  cbn [Clear_from]. do 2 step.
  destruct (i <=? uint8 (Columns d * Rows d)) eqn:E.
  - apply Z.leb_le in E.
    pose proof (SetImage_ok GOOS flipImage toImageFormat i img imageBytes d
                  Hs Ht Hx Hy Henc) as Hset.
    cbv zeta in Hset. rewrite Hc in Hset. fold (batch i) in Hset.
    rewrite (check_run _ _ _ _ Hset).
    assert (Hnext : uint8 (i + 1) = i + 1)
      by (unfold uint8; apply Z.mod_small; lia).
    rewrite Hnext.
    match goal with |- context [Clear_from _ _ _ fuel img (i + 1) ?d1] =>
      destruct (IH (i + 1) d1) as (d' & Hrun & Hw)
    end;
      [ apply session_ok_add_written, session_ok_set_cmd; [exact Hs | reflexivity]
      | exact Ht | exact Hx | exact Hy | exact Hc | exact Hb
      | cbn [Columns Rows add_written set_device set_cmd]; lia
      | cbn [Columns Rows add_written set_device set_cmd]; lia | ].
    exists d'. split; [exact Hrun |].
    rewrite Hw. cbn [Columns Rows written device add_written set_device set_cmd].
    replace (Z.to_nat (uint8 (Columns d * Rows d) + 1 - i))
      with (S (Z.to_nat (uint8 (Columns d * Rows d) + 1 - (i + 1)))) by lia.
    cbn [seq map concat]. rewrite <- seq_shift, map_map, Z.add_0_r, <- app_assoc.
    f_equal. f_equal. f_equal. apply map_ext. intros k. f_equal. lia.
  - apply Z.leb_gt in E. exists d. split; [reflexivity |].
    replace (Z.to_nat (uint8 (Columns d * Rows d) + 1 - i)) with 0%nat by lia.
    cbn. rewrite app_nil_r. reflexivity.
Qed.

(** On a transport that accepts every report, with an encoder that accepts
    the black image, [Clear] on a panel with [Columns * Rows] below 255
    returns without error after [Columns * Rows + 1] uploads, for the
    indices 0 to [Columns * Rows]. *)
Lemma Clear_uploads (imageBytes : list Z) (d : Device) :
  session_ok d -> transport_ok d ->
  toImageFormat (flipImage (blackImage (Pixels d))) = (imageBytes, None) ->
  uint8 (Columns d * Rows d) < 255 ->
  exists d',
    Clear GOOS flipImage toImageFormat d = (Ret None, d') /\
    written (device d')
    = written (device d)
      ++ concat (map (fun k =>
                        frame_BAT (elgato_to_ajazz (Z.of_nat k) (Columns d))
                                  (length imageBytes)
                        :: map (report GOOS) (windows imageBytes))
                     (seq 0 (S (Z.to_nat (uint8 (Columns d * Rows d)))))).
Proof.
  intros Hs Ht Henc Hb. unfold Clear. step.
  assert (Hlo : 0 <= uint8 (Columns d * Rows d))
    by (unfold uint8; apply Z.mod_pos_bound; lia).
  destruct (Clear_from_uploads (blackImage (Pixels d)) imageBytes (Columns d) Henc
              256 0 d Hs Ht eq_refl eq_refl eq_refl Hb ltac:(lia) ltac:(lia))
    as (d' & Hrun & Hw).
  exists d'. split; [exact Hrun |]. rewrite Hw.
  replace (Z.to_nat (uint8 (Columns d * Rows d) + 1 - 0))
    with (S (Z.to_nat (uint8 (Columns d * Rows d)))) by lia.
  reflexivity.
Qed.

End ClearAll.

(** ** Claims on the key index mapper *)

(** C4, as amended.  The elgato side of the tables is 0-based and the ajazz
    side 1-based: the round trip holds for every index from 0 to 17, and
    beyond the tables for every index above 18; [elgato_to_ajazz] returns
    every index above 17 unchanged, [ajazz_to_elgato] every index above
    18. *)
Theorem key_index_round_trip (index columns : Z) :
  (0 <= index <= 17 \/ 18 < index ->
     ajazz_to_elgato (elgato_to_ajazz index columns) columns = Ret index) /\
  (17 < index -> elgato_to_ajazz index columns = index) /\
  (18 < index -> ajazz_to_elgato index columns = Ret index).
Proof.
  split; [| split].
  - intros [Hin | Hout].
    + apply elgato_then_ajazz_in_table. lia.
    + rewrite elgato_to_ajazz_above by lia. apply ajazz_to_elgato_above. exact Hout.
  - apply elgato_to_ajazz_above.
  - apply ajazz_to_elgato_above.
Qed.

(** The indices 5, 18 and 19. *)
Lemma key_index_round_trip_witness :
  ajazz_to_elgato (elgato_to_ajazz 5 6) 6 = Ret 5 /\
  elgato_to_ajazz 18 6 = 18 /\
  ajazz_to_elgato 19 6 = Ret 19.
Proof.
  destruct (key_index_round_trip 5 6) as (H5 & _ & _).
  destruct (key_index_round_trip 18 6) as (_ & H18 & _).
  destruct (key_index_round_trip 19 6) as (_ & _ & H19).
  split; [apply H5; lia | split; [apply H18; lia | apply H19; lia]].
Defined.

(** C4, counterexample.  The elgato index 18 is returned unchanged, and the
    ajazz index 18 is the last entry of the table: it is mapped to 17. *)
Lemma key_index_round_trip_fails_at_18 :
  ~ (forall columns : Z,
       (forall index, 1 <= index <= 18 ->
          ajazz_to_elgato (elgato_to_ajazz index columns) columns = Ret index) /\
       (forall index, 18 < index < 256 -> elgato_to_ajazz index columns = index) /\
       (forall index, 17 < index < 256 -> ajazz_to_elgato index columns = Ret index)).
Proof.
  intros H. destruct (H 6) as (Hround & _ & _).
  specialize (Hround 18 ltac:(lia)). vm_compute in Hround. discriminate.
Qed.

(** C10, the code at the input 0: [index-1] wraps around to 255 and the read
    of the 18-entry table is out of range; for the indices 1 to 18 the read
    is in range, and above 18 the index is returned. *)
Theorem ajazz_to_elgato_zero_out_of_range (columns : Z) :
  ajazz_to_elgato 0 columns = Fault IndexOutOfRange /\
  uint8 (0 - 1) = 255 /\
  length ajazz_table = 18%nat /\
  forall index, 1 <= index < 256 -> exists v, ajazz_to_elgato index columns = Ret v.
Proof.
  split; [reflexivity | split; [reflexivity | split; [reflexivity |]]].
  intros index Hi.
  destruct (Z_le_gt_dec index 18) as [Hle | Hgt].
  - assert (H : 0 <= index - 1 < 18) by lia.
    replace index with (index - 1 + 1) by lia.
    revert H. generalize (index - 1). intros i H.
    each_below_18 H; eexists; reflexivity.
  - exists index. apply ajazz_to_elgato_above. lia.
Qed.

(** ** Claims settled on sample sessions *)

(** C3, counterexample.  [SetImage] with index 0 succeeds on the sample panel
    and the batch frame it writes names slot 13, not the slot 10 that the
    mapper gives for 0 + 1. *)
Lemma SetImage_does_not_add_one :
  ~ (forall (index : Z) (img : Image) (d d' : Device) (frame : list Z)
            (rest : list (list Z)),
       is_uint8 index ->
       SetImage "linux" Sample.flip Sample.encode index img d = (Ret None, d') ->
       written (device d') = written (device d) ++ frame :: rest ->
       frame !! 12%nat = Some (elgato_to_ajazz (uint8 (index + 1)) (Columns d))).
Proof.
  intros H.
  pose (run := SetImage "linux" Sample.flip Sample.encode 0 (blackImage 2) Sample.deck).
  specialize (H 0 (blackImage 2) Sample.deck (snd run)
                (frame_BAT 13 3) [report "linux" [1; 2; 3]]).
  assert (Hf : frame_BAT 13 3 !! 12%nat = Some 10).
  { apply H.
    - split; lia.
    - vm_compute. reflexivity.
    - vm_compute. reflexivity. }
  vm_compute in Hf. discriminate.
Qed.

(** A [SetImage] that succeeds at its second attempt has written two batch
    frames, with the clear frame of the slot between the attempts. *)
Lemma SetImage_second_attempt :
  exists d',
    SetImage "linux" Sample.flip Sample.encode 0 (blackImage 2) Sample.deck_flaky
    = (Ret None, d') /\
    written (device d')
    = [frame_BAT 13 3; report "linux" [1; 2; 3]; frame_CLE 13;
       frame_BAT 13 3; report "linux" [1; 2; 3]].
Proof. eexists. split; vm_compute; reflexivity. Qed.

(** An upload on a transport that refuses every report: three attempts, each
    ending at the batch frame and followed by the clear frame (itself tried
    three times); the error returned lists the errors of the three
    attempts. *)
Lemma cmdBatchRetry_all_attempts_fail :
  exists d',
    cmdBatchRetry "linux" 0 [1; 2; 3] 3 Sample.deck_broken
    = (Ret (Some (ErrAttempts [ErrWrite 0; ErrWrite 4; ErrWrite 8])), d') /\
    written (device d')
    = [frame_BAT 13 3; frame_CLE 13; frame_CLE 13; frame_CLE 13;
       frame_BAT 13 3; frame_CLE 13; frame_CLE 13; frame_CLE 13;
       frame_BAT 13 3; frame_CLE 13; frame_CLE 13; frame_CLE 13].
Proof. eexists. split; vm_compute; reflexivity. Qed.

(** C6, counterexample.  With three attempts, the length check of a two-byte
    logo is run three times: the error returned lists three validation
    errors, not one. *)
Lemma cmdLogoRetry_retries_validation :
  ~ (forall (GOOS : string) (data : list Z) (d : Device),
       Z.of_nat (length data) <> 854 * 480 * 3 ->
       cmdLogoRetry GOOS data 3 d
       = (Ret (Some (ErrAttempts [ErrInvalidDataLength (length data)])), d)).
Proof.
  intros H. specialize (H "linux" [1; 2] Sample.deck ltac:(cbn; lia)).
  vm_compute in H. discriminate.
Qed.

(** C8, counterexample.  The sample panel is asleep with brightness 0;
    [SetBrightness 50] leaves it with brightness 50, so the remembered
    brightness is not the only field that changes. *)
Lemma SetBrightness_asleep_stores_brightness :
  ~ (forall (GOOS : string) (percent : Z) (d : Device),
       asleep d = true -> sleepMutex d = false -> 0 < percent < 256 ->
       SetBrightness GOOS percent d
       = (Ret None, set_preSleepBrightness (clamp percent) d)).
Proof.
  intros H.
  specialize (H "linux" 50 Sample.deck_asleep eq_refl eq_refl ltac:(lia)).
  apply (f_equal (fun x => brightness (snd x))) in H.
  vm_compute in H. discriminate.
Qed.

(** C9, the code on the sample panel of 6 x 3 = 18 keys: [Clear] uploads the
    black image nineteen times, for the indices 0 to 18, the last one past
    the last slot (and sent to slot 18 like the one for index 17). *)
Theorem Clear_uploads_one_index_too_many :
  Keys Sample.deck = 18 /\
  exists d',
    Clear "linux" Sample.flip Sample.encode Sample.deck = (Ret None, d') /\
    written (device d')
    = concat (map (fun index => [frame_BAT (elgato_to_ajazz index 6) 3;
                                 report "linux" [1; 2; 3]])
                  (map Z.of_nat (seq 0 19))) /\
    elgato_to_ajazz 17 6 = 18 /\ elgato_to_ajazz 18 6 = 18.
Proof.
  split; [reflexivity |]. eexists. split; [| split; [| split]].
  - vm_compute. reflexivity.
  - vm_compute. reflexivity.
  - reflexivity.
  - reflexivity.
Qed.

(** ** Witnesses *)

Lemma sample_session_ok : session_ok Sample.deck.
Proof. split; reflexivity. Defined.

Lemma sample_transport_ok : transport_ok Sample.deck.
Proof. intros k. reflexivity. Defined.

(** The upload of the black image to the top-left key of the sample panel. *)
Lemma SetImage_upload_witness :
  session_ok Sample.deck /\ transport_ok Sample.deck /\
  SetImage "linux" Sample.flip Sample.encode 0 (blackImage 2) Sample.deck
  = (Ret None,
     add_written [frame_BAT 13 3; report "linux" [1; 2; 3]]
       (set_cmd (frame_BAT 13 3) Sample.deck)).
Proof.
  split; [exact sample_session_ok |]. split; [exact sample_transport_ok |].
  apply (SetImage_upload "linux" Sample.flip Sample.encode 0 (blackImage 2) [1; 2; 3]
           Sample.deck sample_session_ok sample_transport_ok
           eq_refl eq_refl eq_refl).
Defined.

(** The upload of three bytes to slot 13 on the transport that refuses every
    report. *)
Lemma cmdBatchRetry_clears_before_retry_witness :
  session_ok Sample.deck_broken /\
  frame_CLE 13 !! 11%nat = Some 13 /\
  exists failed : list (nat * nat),
    Forall (attempt_shape [frame_BAT 13 3; report "linux" [1; 2; 3]]) failed.
Proof.
  assert (Hs : session_ok Sample.deck_broken) by (split; reflexivity).
  split; [exact Hs |].
  destruct (cmdBatchRetry_clears_before_retry "linux" 0 [1; 2; 3]
              Sample.deck_broken Hs) as (Hclear & failed & Hshape & _).
  split; [exact Hclear |]. exists failed. exact Hshape.
Defined.

(** A logo of two bytes, and an image of 3 x 3 pixels for keys of 2 x 2. *)
Lemma validation_errors_witness :
  cmdLogo "linux" [1; 2] Sample.deck
  = (Ret (Some (ErrInvalidDataLength 2)), Sample.deck) /\
  SetImage "linux" Sample.flip Sample.encode 0 (blackImage 3) Sample.deck
  = (Ret (Some (ErrWrongDimensions 2)), Sample.deck).
Proof.
  destruct (validation_errors "linux" Sample.flip Sample.encode [1; 2] 0
              (blackImage 3) Sample.deck) as [Hlogo Himg].
  split.
  - apply Hlogo. cbn. lia.
  - apply Himg. left. cbn. lia.
Defined.

(** Brightness 50 asked of the sample panel while it is asleep. *)
Lemma SetBrightness_cases_witness :
  session_ok Sample.deck_asleep /\ sleepMutex Sample.deck_asleep = false /\
  SetBrightness "linux" 50 Sample.deck_asleep
  = (Ret None, set_preSleepBrightness 50 (set_brightness 50 Sample.deck_asleep)).
Proof.
  assert (Hs : session_ok Sample.deck_asleep) by (split; reflexivity).
  split; [exact Hs |]. split; [reflexivity |].
  apply (SetBrightness_cases "linux" 50 Sample.deck_asleep Hs eq_refl).
  split; [reflexivity | lia].
Defined.

(** The sample panel put to sleep at brightness 80 and woken up. *)
Lemma Sleep_then_Wake_witness :
  session_ok Sample.deck /\ transport_ok Sample.deck /\
  asleep Sample.deck = false /\ sleepMutex Sample.deck = false /\
  brightness Sample.deck <= 100 /\
  exists d1 d2,
    Sleep "linux" Sample.ticks Sample.deck = (Ret None, d1) /\
    asleep d1 = true /\
    Wake "linux" Sample.ticks 7 d1 = (Ret None, d2) /\
    asleep d2 = false /\
    brightness d2 = brightness Sample.deck /\
    last (written (device d2)) = Some (frame_LIG (brightness Sample.deck)).
Proof.
  assert (Hb : brightness Sample.deck <= 100) by (cbn; lia).
  split; [exact sample_session_ok |]. split; [exact sample_transport_ok |].
  split; [reflexivity |]. split; [reflexivity |]. split; [exact Hb |].
  exact (Sleep_then_Wake "linux" Sample.ticks 7 Sample.deck
           sample_session_ok sample_transport_ok eq_refl eq_refl Hb).
Defined.

(** * Further properties *)

(** ** The key index mapper, the other way round *)

(** X1.  Every ajazz index from 1 on is mapped to an elgato index that
    [elgato_to_ajazz] maps back to it: the scan code of a key read from the
    device names the slot that an upload for the reported key goes to. *)
Theorem ajazz_then_elgato (index columns : Z) :
  1 <= index ->
  exists logical,
    ajazz_to_elgato index columns = Ret logical /\
    elgato_to_ajazz logical columns = index.
Proof.
  intros Hi. destruct (Z_le_gt_dec index 18) as [Hle | Hgt].
  - assert (H : 0 <= index - 1 < 18) by lia.
    replace index with (index - 1 + 1) by lia.
    revert H. generalize (index - 1). intros i H.
    each_below_18 H; eexists; split; reflexivity.
  - exists index. split.
    + apply ajazz_to_elgato_above. lia.
    + apply elgato_to_ajazz_above. lia.
Qed.

Lemma ajazz_then_elgato_witness :
  exists logical, ajazz_to_elgato 13 6 = Ret logical /\ elgato_to_ajazz logical 6 = 13.
Proof. apply (ajazz_then_elgato 13 6). lia. Defined.

Lemma elgato_to_ajazz_range (i columns : Z) :
  0 <= i <= 17 -> 1 <= elgato_to_ajazz i columns <= 18.
Proof.
  intros Hi. assert (H : 0 <= i < 18) by lia. clear Hi.
  each_below_18 H; vm_compute; split; discriminate.
Qed.

(** X2.  The eighteen indices of the table are mapped to the slots 1 to 18,
    different indices to different slots. *)
Theorem elgato_to_ajazz_slots (i j columns : Z) :
  0 <= i <= 17 -> 0 <= j <= 17 ->
  1 <= elgato_to_ajazz i columns <= 18 /\
  (elgato_to_ajazz i columns = elgato_to_ajazz j columns -> i = j).
Proof.
  intros Hi Hj. split.
  - apply elgato_to_ajazz_range. exact Hi.
  - intros E.
    pose proof (elgato_then_ajazz_in_table i columns ltac:(lia)) as Ri.
    pose proof (elgato_then_ajazz_in_table j columns ltac:(lia)) as Rj.
    rewrite E, Rj in Ri. congruence.
Qed.

Lemma elgato_to_ajazz_slots_witness :
  1 <= elgato_to_ajazz 4 6 <= 18 /\
  (elgato_to_ajazz 4 6 = elgato_to_ajazz 9 6 -> 4 = 9).
Proof. apply (elgato_to_ajazz_slots 4 9 6); lia. Defined.

(** The clear-all value is only mapped to by itself. *)
Lemma elgato_to_ajazz_sentinel (target columns : Z) :
  is_uint8 target ->
  (elgato_to_ajazz target columns = 0xff <-> target = 0xff).
Proof.
  intros [Hlo Hhi]. destruct (Z_le_gt_dec target 17) as [Hle | Hgt].
  - pose proof (elgato_to_ajazz_range target columns ltac:(lia)). lia.
  - rewrite elgato_to_ajazz_above by lia. reflexivity.
Qed.

(** ** Frames without a parameter, and how [WriteRetry] ends *)

Lemma build_frame0 {A : Type} (header f : list Z) (k : M A) (d : Device) :
  session_ok d ->
  copy (replicate 512 0) header = f ->
  (zero_cmd ;; copy_cmd header ;; k) d = k (set_cmd f d).
Proof.
  intros [Hc Hz] Hf.
  unfold zero_cmd, copy_cmd, bind, modify. cbv beta iota.
  cbn [cmd zero set_cmd].
  rewrite Hz, (copy_same_length (cmd d)) by (rewrite length_replicate; exact Hc).
  rewrite Hf. reflexivity.
Qed.

Section MoreCommands.

Variable GOOS : string.

(** [WriteRetry] stops at the first write that the handle accepts, and
    gives up at the third refusal. *)
Lemma WriteRetry_shape (data : list Z) (d : Device) :
  zero d = replicate 512 0 ->
  String.eqb GOOS "windows" = true \/ data <> [] ->
  let start := length (written (device d)) in
  exists n : nat,
    (1 <= n <= 3)%nat /\
    (forall i, (i < n - 1)%nat -> fails (device d) (start + i) = true) /\
    ((fails (device d) (start + n - 1) = false /\
      WriteRetry GOOS data d
      = (Ret None, add_written (replicate n (report GOOS data)) d))
     \/
     (n = 3%nat /\ fails (device d) (start + 2) = true /\
      WriteRetry GOOS data d
      = (Ret (Some (ErrAttempts
                [ErrWrite start; ErrWrite (start + 1); ErrWrite (start + 2)])),
         add_written (replicate 3 (report GOOS data)) d))).
Proof.
  intros Hz Hne start.
  assert (Hrun : forall rs : list (list Z),
            cmdWrite GOOS data (add_written rs d)
            = (Ret (if fails (device d) (start + length rs)
                    then Some (ErrWrite (start + length rs)) else None),
               add_written (rs ++ [report GOOS data]) d)).
  { intros rs. rewrite cmdWrite_report by assumption. unfold Write.
    rewrite length_written_add, add_written_app. reflexivity. }
  pose proof (Hrun []) as H0. rewrite add_written_nil in H0.
  cbn [length app] in H0. rewrite Nat.add_0_r in H0.
  pose proof (Hrun [report GOOS data]) as H1. cbn [length app] in H1.
  pose proof (Hrun [report GOOS data; report GOOS data]) as H2. cbn [length app] in H2.
  unfold WriteRetry. rewrite retry_Do_3. unfold noHook.
  destruct (fails (device d) start) eqn:E0.
  2: { exists 1%nat. split; [lia |]. split; [intros i Hi; lia |]. left.
       replace (start + 1 - 1)%nat with start by lia. split; [exact E0 |].
       rewrite (bind_run _ _ _ _ _ H0). reflexivity. }
  rewrite (bind_run _ _ _ _ _ H0). step.
  destruct (fails (device d) (start + 1)) eqn:E1.
  2: { exists 2%nat. split; [lia |]. split.
       - intros i Hi. replace i with 0%nat by lia. rewrite Nat.add_0_r. exact E0.
       - left. replace (start + 2 - 1)%nat with (start + 1)%nat by lia.
         split; [exact E1 |]. rewrite (bind_run _ _ _ _ _ H1). reflexivity. }
  rewrite (bind_run _ _ _ _ _ H1). step.
  assert (Hall : forall i, (i < 3 - 1)%nat -> fails (device d) (start + i) = true).
  { intros i Hi. destruct i as [| [| i]]; [rewrite Nat.add_0_r; exact E0 | exact E1 | lia]. }
  exists 3%nat. split; [lia |]. split; [exact Hall |].
  replace (start + 3 - 1)%nat with (start + 2)%nat by lia.
  rewrite (bind_run _ _ _ _ _ H2).
  destruct (fails (device d) (start + 2)) eqn:E2.
  - right. split; [reflexivity |]. split; [reflexivity |]. reflexivity.
  - left. split; reflexivity.
Qed.

(** X3.  [WriteRetry] hands the same report to the handle one to three
    times: every write before the last was refused, nil is returned exactly
    when the last write was accepted, and an error only after three
    writes. *)
Theorem WriteRetry_attempts (data : list Z) (d : Device) :
  session_ok d ->
  data <> [] ->
  exists (n : nat) (r : option error),
    (1 <= n <= 3)%nat /\
    WriteRetry GOOS data d = (Ret r, add_written (replicate n (report GOOS data)) d) /\
    (forall i, (i < n - 1)%nat ->
       fails (device d) (length (written (device d)) + i) = true) /\
    (r = None <-> fails (device d) (length (written (device d)) + n - 1) = false) /\
    (r <> None -> n = 3%nat).
Proof.
  intros [_ Hz] Hne.
  destruct (WriteRetry_shape data d Hz (or_intror Hne))
    as (n & Hn & Hbefore & [[Hlast Hrun] | (-> & Hlast & Hrun)]).
  - exists n, None. split; [exact Hn |]. split; [exact Hrun |].
    split; [exact Hbefore |]. split; [tauto | congruence].
  - eexists 3%nat, _. split; [lia |]. split; [exact Hrun |].
    split; [exact Hbefore |]. split; [| reflexivity].
    replace (length (written (device d)) + 3 - 1)%nat
      with (length (written (device d)) + 2)%nat by lia.
    rewrite Hlast. split; discriminate.
Qed.

(** A command that copies a header into the zeroed buffer and sends it. *)
Lemma frame0_command (header f rest : list Z) (d : Device) :
  session_ok d ->
  copy (replicate 512 0) header = f ->
  f = 0x43 :: rest -> length f = 512%nat ->
  (zero_cmd ;; copy_cmd header ;; WriteRetry_cmd GOOS) d
  = WriteRetry GOOS f (set_cmd f d) /\
  report GOOS f = f /\
  session_ok (set_cmd f d).
Proof.
  intros Hs Hcopy Hhd Hlen. split; [| split].
  - rewrite (build_frame0 header f) by assumption.
    unfold WriteRetry_cmd. step. reflexivity.
  - exact (report_of_frame GOOS f rest Hhd Hlen).
  - apply session_ok_set_cmd; assumption.
Qed.

Lemma frame0_command_any (header f rest : list Z) (d : Device) :
  session_ok d ->
  copy (replicate 512 0) header = f ->
  f = 0x43 :: rest -> length f = 512%nat ->
  exists (n : nat) (r : option error),
    (1 <= n <= 3)%nat /\
    (zero_cmd ;; copy_cmd header ;; WriteRetry_cmd GOOS) d
    = (Ret r, add_written (replicate n f) (set_cmd f d)).
Proof.
  intros Hs Hcopy Hhd Hlen.
  destruct (frame0_command header f rest d Hs Hcopy Hhd Hlen) as (Hrun & Hrep & Hs').
  destruct (WriteRetry_any GOOS f (set_cmd f d)) as (n & r & Hn & Hw);
    [apply Hs' | right; rewrite Hhd; discriminate |].
  exists n, r. split; [exact Hn |]. rewrite Hrun, Hw, Hrep. reflexivity.
Qed.

Lemma cmdStopRetry_any (d : Device) :
  session_ok d ->
  exists (n : nat) (r : option error),
    (1 <= n <= 9)%nat /\
    cmdStopRetry GOOS 3 d
    = (Ret r, add_written (replicate n frame_STP) (set_cmd frame_STP d)).
Proof.
  intros Hs. unfold cmdStopRetry.
  apply (retry_Do_3_repeats (cmdStop GOOS) frame_STP 3 (set_cmd frame_STP) session_ok).
  - intros d' Hs'. unfold cmdStop.
    eapply frame0_command_any; [exact Hs' | reflexivity | reflexivity | reflexivity].
  - intros d' rs Hs'. apply session_ok_add_written, session_ok_set_cmd;
      [exact Hs' | reflexivity].
  - reflexivity.
  - exact Hs.
Qed.


Lemma cmdStopRetry_ok (d : Device) :
  session_ok d -> transport_ok d ->
  cmdStopRetry GOOS 3 d = (Ret None, add_written [frame_STP] (set_cmd frame_STP d)).
Proof.
  intros Hs Ht. unfold cmdStopRetry. apply retry_Do_first_try. unfold cmdStop.
  destruct (frame0_command header_STP frame_STP _ d Hs eq_refl eq_refl eq_refl)
    as (Hrun & Hrep & Hs').
  rewrite Hrun, WriteRetry_ok, Hrep; [reflexivity | apply Hs' | exact Ht |].
  right. discriminate.
Qed.

Lemma cmdClearRetry_all_ok (d : Device) :
  session_ok d -> transport_ok d ->
  cmdClearRetry GOOS 0xff 3 d
  = (Ret None, add_written [frame_CLE 0xff] (set_cmd (frame_CLE 0xff) d)).
Proof.
  intros Hs Ht. unfold cmdClearRetry. apply retry_Do_first_try.
  unfold cmdClear. step. change (negb (255 =? 255)) with false. cbv iota.
  rewrite (build_frame header_CLE 11 _ _ _ d Hs (store_CLE _)).
  eapply WriteRetry_cmd_ok; [| exact Ht | reflexivity | reflexivity].
  apply session_ok_set_cmd; [exact Hs | reflexivity].
Qed.

(** The three commands of [Reset] and of [Open], when nothing fails. *)
Lemma stop_light_clear_ok (d : Device) :
  session_ok d -> transport_ok d ->
  (check cmdStopRetry GOOS 3 ;;
   check cmdLightRetry GOOS 100 3 ;;
   cmdClearRetry GOOS 0xff 3) d
  = (Ret None,
     add_written [frame_STP; frame_LIG 100; frame_CLE 0xff]
       (set_cmd (frame_CLE 0xff) d)).
Proof.
  intros Hs Ht.
  rewrite (check_run _ _ _ _ (cmdStopRetry_ok d Hs Ht)).
  set (d1 := add_written [frame_STP] (set_cmd frame_STP d)).
  assert (Hs1 : session_ok d1) by (apply session_ok_set_cmd; [exact Hs | reflexivity]).
  rewrite (check_run _ _ _ _ (cmdLightRetry_ok GOOS 100 d1 Hs1 Ht)).
  set (d2 := add_written [frame_LIG 100] (set_cmd (frame_LIG 100) d1)).
  assert (Hs2 : session_ok d2) by (apply session_ok_set_cmd; [exact Hs1 | reflexivity]).
  rewrite (cmdClearRetry_all_ok d2 Hs2 Ht).
  unfold d2, d1. rewrite !upload_state. reflexivity.
Qed.

(** X4.  On a transport that accepts every report, [Reset] writes the stop
    frame, the set-light frame for 100 and the clear frame for all slots,
    once each and in this order; the brightness the session has stored is
    not changed to 100. *)
Theorem Reset_sends_three_frames (d : Device) :
  session_ok d -> transport_ok d ->
  exists d',
    Reset GOOS d = (Ret None, d') /\
    written (device d')
    = written (device d) ++ [frame_STP; frame_LIG 100; frame_CLE 0xff] /\
    frame_LIG 100 !! 10%nat = Some 100 /\
    frame_CLE 0xff !! 11%nat = Some 0xff /\
    brightness d' = brightness d /\
    session_ok d'.
Proof.
  intros Hs Ht. eexists. split.
  - unfold Reset.
    rewrite (check_run _ _ _ _ (cmdStopRetry_ok d Hs Ht)).
    set (d1 := add_written [frame_STP] (set_cmd frame_STP d)).
    assert (Hs1 : session_ok d1) by (apply session_ok_set_cmd; [exact Hs | reflexivity]).
    rewrite (check_run _ _ _ _ (cmdLightRetry_ok GOOS 100 d1 Hs1 Ht)).
    set (d2 := add_written [frame_LIG 100] (set_cmd (frame_LIG 100) d1)).
    assert (Hs2 : session_ok d2) by (apply session_ok_set_cmd; [exact Hs1 | reflexivity]).
    rewrite (check_run _ _ _ _ (cmdClearRetry_all_ok d2 Hs2 Ht)).
    reflexivity.
  - split; [| split; [reflexivity | split; [reflexivity | split; [reflexivity |]]]].
    + cbn [written device add_written set_device set_cmd].
      rewrite <- !app_assoc. reflexivity.
    + split; [reflexivity | exact (proj2 Hs)].
Qed.


End MoreCommands.

(** ** Opening the session *)

Section OpenSession.

Variable GOOS : string.

Lemma FirmwareVersion_ok (GetFeatureReport : list Z -> Z * option error * list Z)
    (n : Z) (buf : list Z) (d : Device) :
  GetFeatureReport (0x01 :: replicate 511 0) = (n, None, buf) ->
  0 <= n <= Z.of_nat (length buf) ->
  FirmwareVersion GetFeatureReport d = (Ret (take (Z.to_nat n) buf, None), d).
Proof.
  intros Hg Hn. unfold FirmwareVersion.
  change (store (replicate 512 0) 0 1) with (Ret (1 :: replicate 511 0)).
  step. rewrite Hg.
  replace (0 <=? n) with true by (symmetry; apply Z.leb_le; lia).
  unfold slice. case_decide as Hb; [| lia].
  step. rewrite drop_0, Nat.sub_0_r. reflexivity.
Qed.

Lemma FirmwareVersion_error (GetFeatureReport : list Z -> Z * option error * list Z)
    (n : Z) (e : error) (buf : list Z) (d : Device) :
  GetFeatureReport (0x01 :: replicate 511 0) = (n, Some e, buf) ->
  FirmwareVersion GetFeatureReport d = (Ret ([], Some e), d).
Proof.
  intros Hg. unfold FirmwareVersion.
  change (store (replicate 512 0) 0 1) with (Ret (1 :: replicate 511 0)).
  step. rewrite Hg. reflexivity.
Qed.

(** X6.  [Open] on a handle that opens, answers the firmware request and
    accepts every report: whatever the buffers were before, the session has
    its 512-byte transmit buffer and zero-fill buffer afterwards, the handle
    has been given the stop frame, the set-light frame for 100 and the
    clear-all frame in this order, the activity time is the time of the
    call and the sleep lock is free; the stored brightness is not set to
    100 but left as it was. *)
Theorem Open_prepares_session (now : Z) (h : Hid)
    (GetFeatureReport : list Z -> Z * option error * list Z)
    (n : Z) (buf : list Z) (d : Device) :
  handle_ok h ->
  GetFeatureReport (0x01 :: replicate 511 0) = (n, None, buf) ->
  0 <= n <= Z.of_nat (length buf) ->
  exists d',
    Open GOOS now (h, None) GetFeatureReport d = (Ret None, d') /\
    session_ok d' /\
    written (device d') = written h ++ [frame_STP; frame_LIG 100; frame_CLE 0xff] /\
    lastActionTime d' = now /\
    sleepMutex d' = false /\
    brightness d' = brightness d /\
    asleep d' = asleep d.
Proof.
  intros Hh Hg Hn.
  set (d0 := set_device h (set_zero (replicate 512 0) (set_cmd (replicate 512 0)
               (set_sleepMutex false (set_lastActionTime now d))))).
  assert (Hs0 : session_ok d0) by (split; reflexivity).
  assert (Ht0 : transport_ok d0) by exact Hh.
  exists (add_written [frame_STP; frame_LIG 100; frame_CLE 0xff]
            (set_cmd (frame_CLE 0xff) d0)).
  split; [| split; [split; reflexivity | repeat split]].
  unfold Open. do 5 step. cbn [fst snd]. fold d0.
  rewrite (bind_run _ _ _ _ _ (FirmwareVersion_ok GetFeatureReport n buf d0 Hg Hn)).
  cbn [snd]. apply stop_light_clear_ok; assumption.
Qed.

(** X7.  When the handle does not open, or does not answer the firmware
    request, [Open] returns that error and nothing is written: the handle
    has the reports it had. *)
Theorem Open_fails_before_writing (now : Z) (h : Hid) (openError : option error)
    (GetFeatureReport : list Z -> Z * option error * list Z) (e : error) (d : Device) :
  openError = Some e \/
  (openError = None /\
   exists n buf, GetFeatureReport (0x01 :: replicate 511 0) = (n, Some e, buf)) ->
  exists d',
    Open GOOS now (h, openError) GetFeatureReport d = (Ret (Some e), d') /\
    device d' = h.
Proof.
  intros [-> | (-> & n & buf & Hg)]; eexists.
  - split; reflexivity.
  - split.
    + unfold Open. do 5 step. cbn [fst snd].
      rewrite (bind_run _ _ _ _ _ (FirmwareVersion_error GetFeatureReport n e buf _ Hg)).
      reflexivity.
    + reflexivity.
Qed.

End OpenSession.

(** ** More on the commands *)

Lemma set_cmd_same (d : Device) : set_cmd (cmd d) d = d.
Proof. destruct d. reflexivity. Qed.

Section CommandFacts.

Variable GOOS : string.
Variable flipImage : Image -> Image.
Variable toImageFormat : Image -> list Z * option error.

(** [WriteRetry] of the transmit buffer, when the buffer holds a whole
    frame. *)
Lemma WriteRetry_cmd_shape (f rest : list Z) (d : Device) :
  session_ok d -> cmd d = f ->
  f = 0x43 :: rest -> length f = 512%nat ->
  exists n : nat,
    (1 <= n <= 3)%nat /\
    (forall i, (i < n - 1)%nat ->
       fails (device d) (length (written (device d)) + i) = true) /\
    ((fails (device d) (length (written (device d)) + n - 1) = false /\
      WriteRetry_cmd GOOS d = (Ret None, add_written (replicate n f) d))
     \/
     (n = 3%nat /\
      fails (device d) (length (written (device d)) + 2) = true /\
      exists e : error,
        WriteRetry_cmd GOOS d = (Ret (Some e), add_written (replicate 3 f) d))).
Proof.
  intros Hs Hc Hhd Hlen.
  assert (Hne : String.eqb GOOS "windows" = true \/ f <> [])
    by (right; rewrite Hhd; discriminate).
  assert (Hrun : WriteRetry_cmd GOOS d = WriteRetry GOOS f d)
    by (unfold WriteRetry_cmd; step; rewrite Hc; reflexivity).
  rewrite Hrun.
  pose proof (WriteRetry_shape GOOS f d (proj2 Hs) Hne) as Hshape.
  cbv zeta in Hshape.
  rewrite (report_of_frame GOOS f rest Hhd Hlen) in Hshape.
  destruct Hshape as (n & Hn & Hbefore & Hcases).
  exists n. split; [exact Hn |]. split; [exact Hbefore |].
  destruct Hcases as [[Hlast Hw] | (Hn3 & Hlast & Hw)].
  - left. split; [exact Hlast | exact Hw].
  - right. split; [exact Hn3 |]. split; [exact Hlast |]. eexists. exact Hw.
Qed.

(** X8.  [cmdHang] writes the to-logo frame one to three times and the hang
    frame only after a to-logo frame was accepted: when the handle refuses
    all three, the hang frame is not sent and an error is returned. *)
Theorem cmdHang_order (d : Device) :
  session_ok d ->
  exists (n1 n2 : nat) (r : option error) (c : list Z),
    cmdHang GOOS d
    = (Ret r, add_written (replicate n1 frame_DC ++ replicate n2 frame_HAN)
                (set_cmd c d)) /\
    (1 <= n1 <= 3)%nat /\ (n2 <= 3)%nat /\
    (forall i, (i < n1 - 1)%nat ->
       fails (device d) (length (written (device d)) + i) = true) /\
    (fails (device d) (length (written (device d)) + n1 - 1) = false ->
       (1 <= n2)%nat) /\
    (fails (device d) (length (written (device d)) + n1 - 1) = true ->
       n1 = 3%nat /\ n2 = 0%nat /\ r <> None).
Proof.
  intros Hs. unfold cmdHang.
  rewrite (build_frame0 header_DC frame_DC _ d Hs eq_refl).
  assert (Hs1 : session_ok (set_cmd frame_DC d))
    by (apply session_ok_set_cmd; [exact Hs | reflexivity]).
  destruct (WriteRetry_cmd_shape frame_DC (tl frame_DC) (set_cmd frame_DC d)
              Hs1 eq_refl eq_refl eq_refl)
    as (n1 & Hn1 & Hbefore & [[Hlast Hw] | (-> & Hlast & e & Hw)]);
    change (device (set_cmd frame_DC d)) with (device d) in *.
  - rewrite (check_run _ _ _ _ Hw).
    destruct (frame0_command_any GOOS header_HAN frame_HAN (tl frame_HAN)
                (add_written (replicate n1 frame_DC) (set_cmd frame_DC d)))
      as (n2 & r & Hn2 & Hh);
      [apply session_ok_add_written; exact Hs1 | reflexivity | reflexivity
      | reflexivity |].
    rewrite upload_state in Hh.
    exists n1, n2, r, frame_HAN. split; [exact Hh |].
    split; [exact Hn1 |]. split; [lia |]. split; [exact Hbefore |].
    split; [intros _; lia | intros Hf; congruence].
  - rewrite (check_stop _ _ _ _ _ Hw).
    exists 3%nat, 0%nat, (Some e), frame_DC.
    split; [rewrite app_nil_r; reflexivity |].
    split; [lia |]. split; [lia |]. split; [exact Hbefore |].
    replace (length (written (device d)) + 3 - 1)%nat
      with (length (written (device d)) + 2)%nat by lia.
    split; [intros Hf; congruence | intros _].
    split; [reflexivity | split; [reflexivity | discriminate]].
Qed.

(** X9.  [cmdLogo] with a payload of 854 x 480 x 3 bytes builds the logo
    header in the transmit buffer and does not write it: what it writes, on
    any transport, are the reports of the windows of the payload, 2402 of
    them, up to the first one refused; on a transport that accepts every
    report all of them are written and nil is returned. *)
Theorem cmdLogo_writes_payload_only (data : list Z) (d : Device) :
  session_ok d ->
  Z.of_nat (length data) = 854 * 480 * 3 ->
  cmdLogo GOOS data d
  = write_all (map (report GOOS) (windows data)) (set_cmd frame_LOG d) /\
  Z.of_nat (length (map (report GOOS) (windows data))) = 2402 /\
  (transport_ok d ->
     cmdLogo GOOS data d
     = (Ret None,
        add_written (map (report GOOS) (windows data)) (set_cmd frame_LOG d))).
Proof.
  intros Hs Hlen.
  assert (Hrun : cmdLogo GOOS data d
                 = write_all (map (report GOOS) (windows data)) (set_cmd frame_LOG d)).
  { unfold cmdLogo. rewrite Hlen.
    change (negb (854 * 480 * 3 =? 854 * 480 * 3)) with false. cbv iota.
    rewrite (build_frame0 header_LOG frame_LOG _ d Hs eq_refl).
    apply writeChunks_as_writes. apply Hs. }
  split; [exact Hrun |]. split.
  - unfold windows. rewrite !length_map, length_seq. unfold nwindows.
    rewrite Nat2Z.inj_div, Nat2Z.inj_add, Hlen. reflexivity.
  - intros Ht. rewrite Hrun. apply write_all_ok. exact Ht.
Qed.

(** X10.  On a transport that accepts every report, [cmdBatch] for a target
    writes what [cmdBatchRetry] writes for the index one above it (counted
    in uint8): the batch frame for the slot of [target + 1], then the
    reports of the payload. *)
Theorem cmdBatch_is_upload_of_next_index (target : Z) (data : list Z) (d : Device) :
  session_ok d ->
  transport_ok d ->
  let f := frame_BAT (elgato_to_ajazz (uint8 (target + 1)) (Columns d)) (length data) in
  cmdBatch GOOS target data d
  = (Ret None, add_written (f :: map (report GOOS) (windows data)) (set_cmd f d)) /\
  cmdBatch GOOS target data d = cmdBatchRetry GOOS (uint8 (target + 1)) data 3 d.
Proof.
  intros Hs Ht f.
  assert (Hrun : cmdBatch GOOS target data d
                 = (Ret None,
                    add_written (f :: map (report GOOS) (windows data)) (set_cmd f d))).
  { unfold cmdBatch. step.
    rewrite (build_frame header_BAT 12 _ _ _ d Hs (store_BAT _)).
    cbv zeta. step. cbn [cmd set_cmd].
    rewrite PutUint32_BAT. do 2 step. rewrite set_cmd_set_cmd. fold f.
    assert (Hsf : session_ok (set_cmd f d))
      by (apply session_ok_set_cmd; [exact Hs | reflexivity]).
    rewrite (check_run _ _ _ _
               (WriteRetry_cmd_ok GOOS f _ (set_cmd f d) Hsf Ht eq_refl eq_refl)).
    rewrite writeChunks_as_writes by apply Hsf.
    rewrite write_all_ok by exact Ht.
    rewrite add_written_app. reflexivity. }
  split; [exact Hrun |].
  rewrite Hrun. symmetry. apply cmdBatchRetry_ok; assumption.
Qed.

(** X11.  [cmdClear] writes one clear frame, one to three times, with the
    slot at offset 11: the slot is 0xff, which clears all slots, only when
    the target is 0xff, and a target from 0 to 17 is sent as a slot from 1
    to 18. *)
Theorem cmdClear_slot (target : Z) (d : Device) :
  is_uint8 target ->
  session_ok d ->
  exists (n : nat) (r : option error) (slot : Z),
    (1 <= n <= 3)%nat /\
    cmdClear GOOS target d
    = (Ret r, add_written (replicate n (frame_CLE slot)) (set_cmd (frame_CLE slot) d)) /\
    frame_CLE slot !! 11%nat = Some slot /\
    (slot = 0xff <-> target = 0xff) /\
    (target <= 17 -> 1 <= slot <= 18).
Proof.
  intros Hu Hs.
  destruct (cmdClear_any GOOS target d Hs) as (n & r & Hn & Hrun).
  exists n, r, (elgato_to_ajazz target (Columns d)).
  split; [exact Hn |]. split; [exact Hrun |]. split; [reflexivity |].
  split; [apply elgato_to_ajazz_sentinel; exact Hu |].
  intros Hle. apply elgato_to_ajazz_range. destruct Hu. lia.
Qed.

(** X12.  [SetImage] never ends in a run-time fault, whatever the index, the
    image, the encoder and the transport: it returns, and all it changes in
    the session are the reports written and the contents of the transmit
    buffer, which stays 512 bytes long. *)
Theorem SetImage_returns (index : Z) (img : Image) (d : Device) :
  session_ok d ->
  exists (r : option error) (rs : list (list Z)) (c : list Z),
    SetImage GOOS flipImage toImageFormat index img d
    = (Ret r, add_written rs (set_cmd c d)) /\
    length c = 512%nat.
Proof.
  intros Hs.
  assert (Hsame : forall r : option error,
            (Ret r, d) = (Ret r, add_written [] (set_cmd (cmd d) d)))
    by (intros r; rewrite set_cmd_same, add_written_nil; reflexivity).
  unfold SetImage. step.
  destruct (negb (Dy img =? Pixels d) || negb (Dx img =? Pixels d)).
  { eexists _, [], (cmd d). split; [apply Hsame | apply Hs]. }
  destruct (toImageFormat (flipImage img)) as [imageBytes [e |]].
  { eexists _, [], (cmd d). split; [apply Hsame | apply Hs]. }
  destruct (retry_attempts_upload GOOS index imageBytes (Columns d) 2 0 [] d Hs eq_refl)
    as (failed & _ & [[_ Hrun] | [_ Hrun]]);
    unfold cmdBatchRetry, retry_Do;
    rewrite (bind_run _ _ _ _ _ Hrun);
    eexists _, _, _; (split; [reflexivity | reflexivity]).
Qed.

End CommandFacts.

(** ** Fading, sleeping and the idle timer *)

Lemma bind_fault {A B : Type} (m : M A) (k : A -> M B) (d d' : Device) (f : fault) :
  m d = (Fault f, d') -> (x <- m ;; k x) d = (Fault f, d').
Proof. intros H. unfold bind. rewrite H. reflexivity. Qed.

Lemma check_fault (m k : M (option error)) (d d' : Device) (f : fault) :
  m d = (Fault f, d') -> (check m ;; k) d = (Fault f, d').
Proof. intros H. unfold orReturn. apply bind_fault. exact H. Qed.

Lemma unlock_after_lock (d : Device) :
  sleepMutex d = false -> set_sleepMutex false (set_sleepMutex true d) = d.
Proof. intros H. destruct d. cbn in H. subst. reflexivity. Qed.

Lemma clamp_positive (percent : Z) : 0 < percent -> clamp percent > 0.
Proof. intros H. unfold clamp. destruct (percent >? 100); lia. Qed.

(** What a fade leaves as it is. *)
Lemma faded_keeps {A : Type} (f : Device -> A) :
  (forall t d, f (lit t d) = f d) ->
  forall ticks d, f (faded ticks d) = f d.
Proof.
  intros H ticks. induction ticks as [| t rest IH]; intros d; [reflexivity |].
  change (faded (t :: rest) d) with (faded rest (lit t d)).
  rewrite IH. apply H.
Qed.

Lemma faded_written (ticks : list Z) :
  forall d,
    written (device (faded ticks d))
    = written (device d) ++ map (fun t => frame_LIG (clamp t)) ticks.
Proof.
  induction ticks as [| t rest IH]; intros d.
  - cbn [map]. rewrite app_nil_r. reflexivity.
  - change (faded (t :: rest) d) with (faded rest (lit t d)).
    rewrite IH. cbn [map]. unfold lit at 1.
    cbn [written device add_written set_device set_cmd set_brightness].
    rewrite <- app_assoc. reflexivity.
Qed.

Lemma faded_brightness (ticks : list Z) :
  forall d, brightness (faded ticks d) = from_option clamp (brightness d) (last ticks).
Proof.
  induction ticks as [| t rest IH]; intros d; [reflexivity |].
  change (faded (t :: rest) d) with (faded rest (lit t d)).
  rewrite IH, last_cons. destruct (last rest); reflexivity.
Qed.

Lemma faded_session_ok (ticks : list Z) :
  forall d, session_ok d -> session_ok (faded ticks d).
Proof.
  induction ticks as [| t rest IH]; intros d Hs; [exact Hs |].
  change (faded (t :: rest) d) with (faded rest (lit t d)).
  apply IH. apply session_ok_add_written, session_ok_set_cmd; [exact Hs | reflexivity].
Qed.

Section Fading.

Variable GOOS : string.
Variable fadeTicks : Z -> Z -> Z -> list Z.

(** [SetBrightness] when the hardware is to be set, on any transport. *)
Lemma SetBrightness_sets_any (percent : Z) (d : Device) :
  session_ok d ->
  asleep d && (clamp percent >? 0) = false ->
  exists (n : nat) (r : option error),
    (1 <= n <= 9)%nat /\
    SetBrightness GOOS percent d
    = (Ret r,
       add_written (replicate n (frame_LIG (clamp percent)))
         (set_cmd (frame_LIG (clamp percent)) (set_brightness (clamp percent) d))).
Proof.
  intros Hs Hcase. unfold SetBrightness. fold (clamp percent).
  cbv zeta. do 2 step. cbn [asleep set_brightness].
  rewrite Hcase. step. cbn [brightness set_brightness].
  apply cmdLightRetry_any. exact Hs.
Qed.

Lemma Fade_over_lit (ticks : list Z) :
  forall d,
    session_ok d -> transport_ok d -> asleep d = false ->
    Fade_over GOOS ticks d = (Ret None, faded ticks d).
Proof.
  induction ticks as [| t rest IH]; intros d Hs Ht Ha; [reflexivity |].
  cbn [Fade_over].
  assert (Hset := SetBrightness_sets GOOS t d Hs Ht).
  rewrite Ha in Hset. specialize (Hset eq_refl).
  rewrite (check_run _ _ _ _ Hset).
  apply (IH (lit t d)).
  - apply session_ok_add_written, session_ok_set_cmd; [exact Hs | reflexivity].
  - exact Ht.
  - exact Ha.
Qed.

(** X13.  On a device that is awake, on a transport that accepts every
    report, [Fade] returns nil after writing one set-light frame for every
    tick, in the order of the ticks, each with the tick clamped to 100; the
    stored brightness ends at the last tick, and the remembered pre-sleep
    brightness is not touched. *)
Theorem Fade_awake_trace (start end_ duration : Z) (d : Device) :
  session_ok d ->
  transport_ok d ->
  asleep d = false ->
  exists d',
    Fade GOOS fadeTicks start end_ duration d = (Ret None, d') /\
    written (device d')
    = written (device d)
      ++ map (fun t => frame_LIG (clamp t)) (fadeTicks start end_ duration) /\
    brightness d'
    = from_option clamp (brightness d) (last (fadeTicks start end_ duration)) /\
    preSleepBrightness d' = preSleepBrightness d /\
    asleep d' = false.
Proof.
  intros Hs Ht Ha. exists (faded (fadeTicks start end_ duration) d).
  split; [unfold Fade; apply Fade_over_lit; assumption |].
  split; [apply faded_written |].
  split; [apply faded_brightness |].
  split.
  - apply (faded_keeps preSleepBrightness). reflexivity.
  - rewrite (faded_keeps asleep) by reflexivity. exact Ha.
Qed.

Lemma Fade_over_asleep (ticks : list Z) :
  forall d,
    session_ok d -> asleep d = true -> sleepMutex d = false ->
    Forall (fun t => 0 <= t) ticks ->
    exists (r : option error) (d' : Device) (rs : list (list Z)),
      Fade_over GOOS ticks d = (Ret r, d') /\
      written (device d') = written (device d) ++ rs /\
      Forall (fun x => x = frame_LIG 0) rs /\
      asleep d' = true /\ sleepMutex d' = false /\
      (Forall (fun t => 0 < t) ticks ->
         r = None /\ rs = [] /\
         preSleepBrightness d' = from_option clamp (preSleepBrightness d) (last ticks)).
Proof.
  induction ticks as [| t rest IH]; intros d Hs Ha Hm Hticks.
  - exists None, d, []. rewrite app_nil_r. conjuncts; try reflexivity; try assumption.
    + constructor.
    + intros _. conjuncts; reflexivity.
  - apply Forall_cons in Hticks as [Ht Hrest]. cbn [Fade_over].
    destruct (decide (t = 0)) as [-> | Hnz].
    + destruct (SetBrightness_sets_any 0 d Hs (andb_false_r _)) as (n & r0 & Hn & Hrun).
      change (clamp 0) with 0 in Hrun.
      destruct r0 as [e |].
      * rewrite (check_stop _ _ _ _ _ Hrun).
        eexists (Some e), _, (replicate n (frame_LIG 0)).
        conjuncts; [reflexivity | reflexivity | | exact Ha | exact Hm |].
        -- apply Forall_replicate. reflexivity.
        -- intros Hpos. apply Forall_cons in Hpos as [Hpos _]. lia.
      * rewrite (check_run _ _ _ _ Hrun).
        match goal with |- context [Fade_over GOOS rest ?d1] =>
          destruct (IH d1) as (r & d' & rs & Hfade & Hw & Hrs & Ha' & Hm' & _)
        end;
          [apply session_ok_add_written, session_ok_set_cmd;
             [exact Hs | reflexivity]
          | exact Ha | exact Hm | exact Hrest |].
        exists r, d', (replicate n (frame_LIG 0) ++ rs).
        conjuncts; [exact Hfade | | | exact Ha' | exact Hm' |].
        -- rewrite Hw.
           cbn [written device add_written set_device set_cmd set_brightness].
           rewrite <- app_assoc. reflexivity.
        -- apply Forall_app. split; [apply Forall_replicate; reflexivity | exact Hrs].
        -- intros Hpos. apply Forall_cons in Hpos as [Hpos _]. lia.
    + assert (Hp : clamp t > 0) by (apply clamp_positive; lia).
      rewrite (check_run _ _ _ _ (SetBrightness_defers GOOS t d Ha Hp Hm)).
      match goal with |- context [Fade_over GOOS rest ?d1] =>
        destruct (IH d1) as (r & d' & rs & Hfade & Hw & Hrs & Ha' & Hm' & Hall)
      end; [exact Hs | exact Ha | exact Hm | exact Hrest |].
      exists r, d', rs.
      conjuncts; [exact Hfade | exact Hw | exact Hrs | exact Ha' | exact Hm' |].
      intros Hpos. apply Forall_cons in Hpos as [_ Hpos].
      destruct (Hall Hpos) as (Hr & Hnil & Hpre).
      conjuncts; [exact Hr | exact Hnil |].
      rewrite Hpre, last_cons. destruct (last rest); reflexivity.
Qed.

(** X14.  While the device is asleep (and nobody holds the sleep mutex),
    [Fade] over ticks that are unsigned never lights the panel, on any
    transport: it returns, every report it writes is the set-light frame of
    brightness 0, and the device stays asleep.  When every tick is above 0
    it writes nothing and returns nil, and the remembered pre-sleep
    brightness ends at the last tick, clamped to 100. *)
Theorem Fade_asleep_stays_dark (start end_ duration : Z) (d : Device) :
  session_ok d ->
  asleep d = true ->
  sleepMutex d = false ->
  Forall (fun t => 0 <= t) (fadeTicks start end_ duration) ->
  exists (r : option error) (d' : Device) (rs : list (list Z)),
    Fade GOOS fadeTicks start end_ duration d = (Ret r, d') /\
    written (device d') = written (device d) ++ rs /\
    Forall (fun x => x = frame_LIG 0) rs /\
    asleep d' = true /\ sleepMutex d' = false /\
    (Forall (fun t => 0 < t) (fadeTicks start end_ duration) ->
       r = None /\ rs = [] /\
       preSleepBrightness d'
       = from_option clamp (preSleepBrightness d)
           (last (fadeTicks start end_ duration))).
Proof.
  intros Hs Ha Hm Hticks. unfold Fade. apply Fade_over_asleep; assumption.
Qed.

(** X15.  [Sleep] on a device that is already asleep blocks for ever when
    the fade starts above 0: it holds the sleep mutex, and [SetBrightness],
    asked for a value above 0 on a sleeping device, takes the same mutex
    again.  Nothing is written before that. *)
Theorem Sleep_while_asleep_blocks (t : Z) (rest : list Z) (d : Device) :
  asleep d = true ->
  sleepMutex d = false ->
  fadeTicks (brightness d) 0 (fadeDuration d) = t :: rest ->
  0 < t ->
  exists d',
    Sleep GOOS fadeTicks d = (Fault Deadlock, d') /\
    sleepMutex d' = true /\
    written (device d') = written (device d).
Proof.
  intros Ha Hm Hticks Hpos.
  assert (Hp : (clamp t >? 0) = true)
    by (apply Z.gtb_lt; pose proof (clamp_positive t Hpos); lia).
  eexists. split.
  - unfold Sleep, withSleepMutex.
    rewrite (bind_run _ _ _ _ _ (lockSleep_free d Hm)).
    apply bind_fault. do 4 step.
    cbn [brightness fadeDuration set_preSleepBrightness set_sleepMutex].
    apply check_fault. unfold Fade. rewrite Hticks. cbn [Fade_over].
    apply check_fault. unfold SetBrightness. fold (clamp t).
    cbv zeta. do 2 step. cbn [asleep set_brightness set_preSleepBrightness set_sleepMutex].
    rewrite Ha, Hp. cbn [andb]. apply bind_fault.
    unfold lockSleep. cbn [sleepMutex set_brightness set_preSleepBrightness set_sleepMutex].
    reflexivity.
  - split; reflexivity.
Qed.

(** [Sleep] of a device that is awake, on a transport that accepts every
    report. *)
Lemma Sleep_runs (d : Device) :
  session_ok d -> transport_ok d -> asleep d = false -> sleepMutex d = false ->
  Sleep GOOS fadeTicks d
  = (Ret None,
     set_sleepMutex false
       (lit 0 (set_asleep true
                 (faded (fadeTicks (brightness d) 0 (fadeDuration d))
                    (set_preSleepBrightness (brightness d) (set_sleepMutex true d)))))).
Proof.
  intros Hs Ht Ha Hm. unfold Sleep. apply withSleepMutex_run; [exact Hm |].
  do 4 step. cbn [brightness fadeDuration set_preSleepBrightness set_sleepMutex].
  unfold Fade.
  rewrite (check_run _ _ _ _
             (Fade_over_lit _ (set_preSleepBrightness (brightness d) (set_sleepMutex true d))
                Hs Ht Ha)).
  step.
  apply (SetBrightness_sets GOOS 0).
  - apply (faded_session_ok _ (set_preSleepBrightness (brightness d) (set_sleepMutex true d))).
    exact Hs.
  - intros k. unfold transport_ok in Ht.
    cbn [device set_asleep].
    rewrite (faded_keeps (fun d => fails (device d))) by reflexivity. apply Ht.
  - apply andb_false_r.
Qed.

(** [Wake], on a transport that accepts every report. *)
Lemma Wake_runs (now : Z) (d : Device) :
  session_ok d -> transport_ok d -> sleepMutex d = false ->
  Wake GOOS fadeTicks now d
  = (Ret None,
     set_sleepMutex false
       (lit (preSleepBrightness d)
          (set_lastActionTime now
             (faded (fadeTicks 0 (preSleepBrightness d) (fadeDuration d))
                (set_asleep false (set_sleepMutex true d)))))).
Proof.
  intros Hs Ht Hm. unfold Wake. apply withSleepMutex_run; [exact Hm |].
  do 3 step. cbn [preSleepBrightness fadeDuration set_asleep set_sleepMutex].
  unfold Fade.
  rewrite (check_run _ _ _ _
             (Fade_over_lit _ (set_asleep false (set_sleepMutex true d))
                Hs Ht eq_refl)).
  do 2 step. cbn [preSleepBrightness set_lastActionTime].
  rewrite (faded_keeps preSleepBrightness) by reflexivity.
  cbn [preSleepBrightness set_asleep set_sleepMutex].
  apply (SetBrightness_sets GOOS (preSleepBrightness d)).
  - apply (faded_session_ok _ (set_asleep false (set_sleepMutex true d))). exact Hs.
  - intros k. cbn [device set_lastActionTime].
    rewrite (faded_keeps (fun d => fails (device d))) by reflexivity. apply Ht.
  - cbn [asleep set_lastActionTime].
    rewrite (faded_keeps asleep) by reflexivity. reflexivity.
Qed.

(** X16.  One tick of the idle timer: while the device is asleep, or while
    the last action is less than the timeout ago, the tick leaves the
    session as it is.  On a device that is awake and idle for the timeout or
    longer, on a transport that accepts every report, it puts the device to
    sleep: the frames of the fade from the brightness down, then the
    set-light frame of 0, are written, the stored brightness is 0 and the
    brightness from before is remembered. *)
Theorem sleepTimer_tick_cases (t now : Z) (d : Device) :
  sleepMutex d = false ->
  (asleep d = true \/ now - lastActionTime d < t ->
     sleepTimer_tick GOOS fadeTicks t now d = (Ret tt, d)) /\
  (asleep d = false -> t <= now - lastActionTime d ->
   session_ok d -> transport_ok d ->
     exists d',
       sleepTimer_tick GOOS fadeTicks t now d = (Ret tt, d') /\
       asleep d' = true /\ sleepMutex d' = false /\
       brightness d' = 0 /\
       preSleepBrightness d' = brightness d /\
       lastActionTime d' = lastActionTime d /\
       written (device d')
       = written (device d)
         ++ map (fun t => frame_LIG (clamp t))
              (fadeTicks (brightness d) 0 (fadeDuration d))
         ++ [frame_LIG 0]).
Proof.
  intros Hm.
  split.
  - intros Hcase. unfold sleepTimer_tick.
    rewrite (bind_run _ _ _ _ _ (lockSleep_free d Hm)).
    step. cbn [lastActionTime set_sleepMutex].
    unfold unlockSleep. do 2 step.
    rewrite (unlock_after_lock d Hm).
    replace (negb (asleep d) && (now - lastActionTime d >=? t)) with false;
      [reflexivity |].
    symmetry. destruct Hcase as [Ha | Hlt]; [rewrite Ha; reflexivity |].
    apply andb_false_iff. right. rewrite Z.geb_leb. apply Z.leb_gt. lia.
  - intros Ha Hle Hs Ht. unfold sleepTimer_tick.
    rewrite (bind_run _ _ _ _ _ (lockSleep_free d Hm)).
    step. cbn [lastActionTime set_sleepMutex].
    unfold unlockSleep. do 2 step.
    rewrite (unlock_after_lock d Hm), Ha.
    replace (now - lastActionTime d >=? t) with true
      by (symmetry; rewrite Z.geb_leb; apply Z.leb_le; lia).
    cbn [negb andb].
    rewrite (bind_run _ _ _ _ _ (Sleep_runs d Hs Ht Ha Hm)).
    eexists. split; [reflexivity |].
    unfold lit.
    cbn [asleep sleepMutex brightness preSleepBrightness lastActionTime written
         device set_sleepMutex add_written set_device set_cmd set_brightness
         set_asleep].
    conjuncts; try reflexivity.
    + rewrite (faded_keeps preSleepBrightness) by reflexivity. reflexivity.
    + rewrite (faded_keeps lastActionTime) by reflexivity. reflexivity.
    + rewrite faded_written. rewrite <- app_assoc. reflexivity.
Qed.

End Fading.

(** ** The key reader *)

Lemma length_copy (dst src : list Z) : length (copy dst src) = length dst.
Proof. unfold copy. rewrite length_app, length_take, length_drop. lia. Qed.

(** [copy] puts the bytes of the source at the start of the buffer and
    keeps the bytes behind them. *)
Lemma copy_lookup_src (dst src : list Z) (i : nat) (v : Z) :
  (i < length dst)%nat -> src !! i = Some v -> copy dst src !! i = Some v.
Proof.
  intros Hi Hv. unfold copy.
  assert (Hl : (i < length src)%nat) by (apply lookup_lt_is_Some; eauto).
  rewrite lookup_app_l by (rewrite length_take; lia).
  rewrite lookup_take. case_decide; [exact Hv | lia].
Qed.

Lemma copy_lookup_dst (dst src : list Z) (i : nat) :
  (i < length dst)%nat -> (length src <= i)%nat -> copy dst src !! i = dst !! i.
Proof.
  intros Hi Hl. unfold copy.
  rewrite lookup_app_r by (rewrite length_take; lia).
  rewrite length_take, lookup_drop. f_equal. lia.
Qed.

Lemma index_at_lookup (l : list Z) (i : nat) (v : Z) :
  l !! i = Some v -> index_at l (Z.of_nat i) = Ret v.
Proof.
  intros H. unfold index_at.
  replace (0 <=? Z.of_nat i) with true by (symmetry; apply Z.leb_le; lia).
  rewrite Nat2Z.id, H. reflexivity.
Qed.

Lemma store_in_range (l : list Z) (i : nat) (v : Z) :
  (i < length l)%nat -> store l i v = Ret (<[i:=v]> l).
Proof. intros H. unfold store. case_decide; [reflexivity | lia]. Qed.

Lemma set_lastActionTime_unlock (now : Z) (d : Device) :
  sleepMutex d = false ->
  set_sleepMutex false (set_lastActionTime now (set_sleepMutex true d))
  = set_lastActionTime now d.
Proof. intros H. destruct d. cbn in H. subst. reflexivity. Qed.

Section Keys.

Variable GOOS : string.
Variable fadeTicks : Z -> Z -> Z -> list Z.
Variable translateKeyIndex : Z -> Z -> res Z.

(** One turn of the loop for an answer with a positive count, on a device
    that is awake: the scan code is what the buffer holds at offset 9 after
    the read. *)
Lemma ReadKeys_loop_turn (a : ReadAnswer) (now code : Z)
    (rest : list (ReadAnswer * Z)) (rd : Reader) (d : Device) :
  asleep d = false -> sleepMutex d = false ->
  length (keyBuffer rd) = 512%nat ->
  read_err a = None -> 0 < read_n a ->
  copy (keyBuffer rd) (read_bytes a) !! 9%nat = Some code ->
  ReadKeys_loop GOOS fadeTicks translateKeyIndex ((a, now) :: rest) rd d
  = match translateKeyIndex code (Columns d) with
    | Ret index =>
        ReadKeys_loop GOOS fadeTicks translateKeyIndex rest
          (mkReader (<[9%nat:=0]> (copy (keyBuffer rd) (read_bytes a)))
             (kch rd ++ [mkKey index true; mkKey index false])
             (kch_closed rd))
          (set_lastActionTime now d)
    | Fault f => (Fault f, set_lastActionTime now d)
    end.
Proof.
  intros Ha Hm Hl Herr Hn Hcode. cbn [ReadKeys_loop]. rewrite Herr.
  replace (read_n a <=? 0) with false by (symmetry; apply Z.leb_gt; lia).
  step. rewrite Ha.
  rewrite (bind_run _ _ _ _ _ (lockSleep_free d Hm)).
  step. unfold unlockSleep. step.
  rewrite (set_lastActionTime_unlock now d Hm).
  rewrite (index_at_lookup _ 9 code Hcode : index_at _ 9 = Ret code).
  do 2 step. cbn [Columns set_lastActionTime].
  destruct (translateKeyIndex code (Columns d)) as [index | f].
  - do 2 step. rewrite store_in_range by (rewrite length_copy; lia).
    step. reflexivity.
  - reflexivity.
Qed.

(** The loop over full key reports, followed by further answers. *)
Lemma ReadKeys_loop_key_reports (pre : list (ReadAnswer * Z)) :
  forall (post : list (ReadAnswer * Z)) (rd : Reader) (d : Device),
    asleep d = false -> sleepMutex d = false ->
    length (keyBuffer rd) = 512%nat ->
    Forall (fun a => key_report translateKeyIndex (Columns d) (fst a)) pre ->
    exists buf : list Z,
      length buf = 512%nat /\
      (keyBuffer rd !! 9%nat = Some 0 -> buf !! 9%nat = Some 0) /\
      ReadKeys_loop GOOS fadeTicks translateKeyIndex (pre ++ post) rd d
      = ReadKeys_loop GOOS fadeTicks translateKeyIndex post
          (mkReader buf (kch rd ++ events_of translateKeyIndex (Columns d) pre) (kch_closed rd))
          (touched pre d).
Proof.
  induction pre as [| [a now] pre IH]; intros post rd d Ha Hm Hl Hpre.
  - exists (keyBuffer rd). split; [exact Hl |]. split; [exact (fun H => H) |].
    unfold events_of, touched. cbn [flat_map last from_option app].
    rewrite app_nil_r. destruct rd. reflexivity.
  - apply Forall_cons in Hpre as [Hrep Hpre].
    destruct Hrep as (Herr & Hn & code & index & Hcode & Htr).
    cbn [fst] in Herr, Hn, Hcode.
    cbn [app].
    rewrite (ReadKeys_loop_turn a now code (pre ++ post) rd d Ha Hm Hl Herr Hn)
      by (apply copy_lookup_src; [lia | exact Hcode]).
    rewrite Htr.
    destruct (IH post
                (mkReader (<[9%nat:=0]> (copy (keyBuffer rd) (read_bytes a)))
                   (kch rd ++ [mkKey index true; mkKey index false])
                   (kch_closed rd))
                (set_lastActionTime now d))
      as (buf & Hlb & Hb9 & Hrun).
    + exact Ha.
    + exact Hm.
    + cbn [keyBuffer]. rewrite length_insert, length_copy. exact Hl.
    + exact Hpre.
    + exists buf. split; [exact Hlb |]. split.
      { intros _. apply Hb9. cbn [keyBuffer].
        apply list_lookup_insert_eq. rewrite length_copy. lia. }
      rewrite Hrun. cbn [kch kch_closed Columns set_lastActionTime].
      unfold events_of, touched. cbn [flat_map fst].
      unfold key_events at 2. rewrite Hcode, Htr.
      rewrite <- app_assoc. rewrite last_cons.
      destruct (last pre) as [[a' now'] |]; reflexivity.
Qed.

Lemma touched_awake (answers : list (ReadAnswer * Z)) (d : Device) :
  asleep (touched answers d) = asleep d /\
  sleepMutex (touched answers d) = sleepMutex d /\
  Columns (touched answers d) = Columns d /\
  device (touched answers d) = device d.
Proof. unfold touched. destruct (last answers); conjuncts; reflexivity. Qed.

(** X17.  On a device that is awake, [ReadKeys] over full key reports sends
    for every report the press and then the release of the key its scan
    code (offset 9) is translated to, in the order of the reports; the
    channel stays open, nothing is written to the device, and the time of
    the last action is the time of the last report. *)
Theorem ReadKeys_events (answers : list (ReadAnswer * Z)) (d : Device) :
  asleep d = false ->
  sleepMutex d = false ->
  Forall (fun a => key_report translateKeyIndex (Columns d) (fst a)) answers ->
  exists buf : list Z,
    ReadKeys GOOS fadeTicks translateKeyIndex answers d
    = (Ret (mkReader buf
              (flat_map (fun a => key_events translateKeyIndex (Columns d) (fst a))
                 answers)
              false),
       from_option (fun a => set_lastActionTime (snd a) d) d (last answers)) /\
    length (flat_map (fun a => key_events translateKeyIndex (Columns d) (fst a))
              answers)
    = (2 * length answers)%nat.
Proof.
  intros Ha Hm Hall.
  destruct (ReadKeys_loop_key_reports answers [] (mkReader (replicate 512 0) [] false) d
              Ha Hm eq_refl Hall)
    as (buf & _ & _ & Hrun).
  exists buf. split.
  - unfold ReadKeys. rewrite app_nil_r in Hrun. rewrite Hrun. reflexivity.
  - clear Hrun. induction Hall as [| [a now] rest Hrep _ IH]; [reflexivity |].
    destruct Hrep as (_ & _ & code & index & Hcode & Htr). cbn [fst] in Hcode.
    cbn [flat_map fst length]. unfold key_events at 1. rewrite Hcode, Htr.
    cbn [app length]. rewrite IH. lia.
Qed.

(** X18.  A report shorter than ten bytes that follows full key reports is
    read with the scan code 0: the reader has set offset 9 of its buffer to
    0 after the event before (and the buffer starts zeroed).  Its events are
    those of the translation of 0, and when the translation of 0 ends in a
    run-time fault, so does the reader. *)
Theorem ReadKeys_short_report (pre : list (ReadAnswer * Z)) (a : ReadAnswer)
    (now : Z) (d : Device) :
  asleep d = false ->
  sleepMutex d = false ->
  Forall (fun a => key_report translateKeyIndex (Columns d) (fst a)) pre ->
  read_err a = None -> 0 < read_n a ->
  (length (read_bytes a) <= 9)%nat ->
  (forall index, translateKeyIndex 0 (Columns d) = Ret index ->
     exists buf : list Z,
       ReadKeys GOOS fadeTicks translateKeyIndex (pre ++ [(a, now)]) d
       = (Ret (mkReader buf
                 (flat_map (fun a => key_events translateKeyIndex (Columns d) (fst a))
                    pre
                  ++ [mkKey index true; mkKey index false])
                 false),
          set_lastActionTime now d)) /\
  (forall f, translateKeyIndex 0 (Columns d) = Fault f ->
     ReadKeys GOOS fadeTicks translateKeyIndex (pre ++ [(a, now)]) d
     = (Fault f, set_lastActionTime now d)).
Proof.
  intros Ha Hm Hall Herr Hn Hshort.
  destruct (ReadKeys_loop_key_reports pre [(a, now)]
              (mkReader (replicate 512 0) [] false) d Ha Hm eq_refl Hall)
    as (buf & Hlb & Hb9 & Hrun).
  specialize (Hb9 eq_refl).
  destruct (touched_awake pre d) as (Ha' & Hm' & Hc' & _).
  rewrite Ha in Ha'. rewrite Hm in Hm'.
  assert (Hturn := ReadKeys_loop_turn a now 0 []
                     (mkReader buf ([] ++ events_of translateKeyIndex (Columns d) pre) false)
                     (touched pre d) Ha' Hm' Hlb Herr Hn).
  cbn [keyBuffer kch kch_closed] in Hturn.
  rewrite copy_lookup_dst in Hturn by lia.
  specialize (Hturn Hb9). rewrite Hc' in Hturn.
  assert (Hlast : set_lastActionTime now (touched pre d) = set_lastActionTime now d)
    by (unfold touched; destruct (last pre); reflexivity).
  rewrite Hlast in Hturn.
  split.
  - intros index Htr. rewrite Htr in Hturn. eexists.
    unfold ReadKeys. cbn [kch kch_closed] in Hrun. rewrite Hrun, Hturn. reflexivity.
  - intros f Htr. rewrite Htr in Hturn.
    unfold ReadKeys. cbn [kch kch_closed] in Hrun. rewrite Hrun, Hturn. reflexivity.
Qed.

(** A read error after answers that left the channel open. *)
Lemma ReadKeys_loop_read_error (pre : list (ReadAnswer * Z)) :
  forall (rd : Reader) (d : Device) (rd' : Reader) (d' : Device),
    ReadKeys_loop GOOS fadeTicks translateKeyIndex pre rd d = (Ret rd', d') ->
    kch_closed rd' = false ->
    forall (a : ReadAnswer) (now : Z) (post : list (ReadAnswer * Z)) (e : error),
      read_err a = Some e ->
      ReadKeys_loop GOOS fadeTicks translateKeyIndex (pre ++ (a, now) :: post) rd d
      = (Ret (mkReader (copy (keyBuffer rd') (read_bytes a)) (kch rd') true), d').
Proof.
  induction pre as [| [a0 t0] pre IH]; intros rd d rd' d' Hrun Hopen a now post e Herr.
  - cbn [ReadKeys_loop] in Hrun. injection Hrun as <- <-.
    cbn [app ReadKeys_loop]. rewrite Herr. reflexivity.
  - cbn [app]. cbn [ReadKeys_loop] in Hrun |- *.
    destruct (read_err a0) as [e0 |].
    { injection Hrun as <- <-. cbn [kch_closed] in Hopen. discriminate. }
    destruct (read_n a0 <=? 0); [eapply IH; eassumption |].
    rewrite bind_gets in Hrun. rewrite bind_gets.
    destruct (asleep d).
    + destruct (Wake GOOS fadeTicks t0 d) as [[r | f] dw] eqn:EW.
      * rewrite (bind_run _ _ _ _ _ EW) in Hrun. rewrite (bind_run _ _ _ _ _ EW).
        eapply IH; eassumption.
      * rewrite (bind_fault _ _ _ _ _ EW) in Hrun. discriminate.
    + destruct (lockSleep d) as [[[] | f] d1] eqn:EL.
      * rewrite (bind_run _ _ _ _ _ EL) in Hrun. rewrite (bind_run _ _ _ _ _ EL).
        unfold unlockSleep in Hrun |- *.
        rewrite !bind_modify in Hrun. rewrite !bind_modify.
        destruct (index_at (copy (keyBuffer rd) (read_bytes a0)) 9) as [code | f].
        2:{ discriminate. }
        rewrite bind_lift_Ret, bind_gets in Hrun. rewrite bind_lift_Ret, bind_gets.
        destruct (translateKeyIndex code _) as [index | f].
        2:{ discriminate. }
        rewrite !bind_lift_Ret in Hrun. rewrite !bind_lift_Ret.
        destruct (store (copy (keyBuffer rd) (read_bytes a0)) 9 0) as [buffer | f].
        2:{ discriminate. }
        rewrite bind_lift_Ret in Hrun. rewrite bind_lift_Ret.
        eapply IH; eassumption.
      * rewrite (bind_fault _ _ _ _ _ EL) in Hrun. discriminate.
Qed.

(** X19.  A read error ends the reader: when [ReadKeys] over some answers
    returns with the channel open, the same answers followed by a read
    error give the same events and the same session, with the channel
    closed, whatever answers come after the error. *)
Theorem ReadKeys_read_error_closes (pre post : list (ReadAnswer * Z))
    (a : ReadAnswer) (now : Z) (e : error) (rd' : Reader) (d d' : Device) :
  ReadKeys GOOS fadeTicks translateKeyIndex pre d = (Ret rd', d') ->
  kch_closed rd' = false ->
  read_err a = Some e ->
  exists buf : list Z,
    ReadKeys GOOS fadeTicks translateKeyIndex (pre ++ (a, now) :: post) d
    = (Ret (mkReader buf (kch rd') true), d').
Proof.
  intros Hrun Hopen Herr. eexists. unfold ReadKeys.
  apply (ReadKeys_loop_read_error pre _ d rd' d' Hrun Hopen a now post e Herr).
Qed.

(** X20.  A report that arrives while the device is asleep wakes it and is
    not turned into an event: on a transport that accepts every report,
    [ReadKeys] over such a report and then full key reports sends the
    events of the later reports only; the device ends awake, at the
    brightness remembered from before the sleep (clamped to 100), and the
    last frame written sets that brightness. *)
Theorem ReadKeys_wakes_without_event (a : ReadAnswer) (now : Z)
    (rest : list (ReadAnswer * Z)) (d : Device) :
  session_ok d ->
  transport_ok d ->
  asleep d = true ->
  sleepMutex d = false ->
  read_err a = None -> 0 < read_n a ->
  Forall (fun a => key_report translateKeyIndex (Columns d) (fst a)) rest ->
  exists (buf : list Z) (d' : Device),
    ReadKeys GOOS fadeTicks translateKeyIndex ((a, now) :: rest) d
    = (Ret (mkReader buf
              (flat_map (fun a => key_events translateKeyIndex (Columns d) (fst a))
                 rest)
              false),
       d') /\
    asleep d' = false /\
    brightness d' = clamp (preSleepBrightness d) /\
    last (written (device d')) = Some (frame_LIG (clamp (preSleepBrightness d))).
Proof.
  intros Hs Ht Ha Hm Herr Hn Hrest.
  pose proof (Wake_runs GOOS fadeTicks now d Hs Ht Hm) as Hwake.
  set (dw := set_sleepMutex false
               (lit (preSleepBrightness d)
                  (set_lastActionTime now
                     (faded (fadeTicks 0 (preSleepBrightness d) (fadeDuration d))
                        (set_asleep false (set_sleepMutex true d)))))) in Hwake.
  assert (Haw : asleep dw = false).
  { unfold dw, lit.
    cbn [asleep set_sleepMutex add_written set_device set_cmd set_brightness
         set_lastActionTime].
    rewrite (faded_keeps asleep) by reflexivity. reflexivity. }
  assert (Hcw : Columns dw = Columns d).
  { unfold dw, lit.
    cbn [Columns set_sleepMutex add_written set_device set_cmd set_brightness
         set_lastActionTime].
    rewrite (faded_keeps Columns) by reflexivity. reflexivity. }
  assert (Hrest' : Forall (fun a => key_report translateKeyIndex (Columns dw) (fst a)) rest)
    by (rewrite Hcw; exact Hrest).
  destruct (ReadKeys_loop_key_reports rest []
              (mkReader (copy (replicate 512 0) (read_bytes a)) [] false) dw
              Haw eq_refl (length_copy _ _) Hrest')
    as (buf & _ & _ & Hrun).
  rewrite app_nil_r in Hrun. cbn [ReadKeys_loop kch kch_closed app] in Hrun.
  exists buf, (touched rest dw). split; [| split; [| split]].
  - unfold ReadKeys. cbn [ReadKeys_loop]. rewrite Herr.
    replace (read_n a <=? 0) with false by (symmetry; apply Z.leb_gt; lia).
    step. rewrite Ha. rewrite (bind_run _ _ _ _ _ Hwake).
    cbn [keyBuffer kch kch_closed]. rewrite Hrun.
    unfold events_of. rewrite Hcw. reflexivity.
  - destruct (touched_awake rest dw) as (-> & _). exact Haw.
  - unfold touched. destruct (last rest); reflexivity.
  - destruct (touched_awake rest dw) as (_ & _ & _ & ->).
    unfold dw, lit. cbn [written device set_sleepMutex add_written set_device].
    apply last_snoc.
Qed.

End Keys.

(** ** Closing, flushing and the firmware request *)

Section Closing.

Variable GOOS : string.

(** X21.  [cmdExit], the one command [Close] sends, writes the to-logo
    frame one to three times and nothing else; it returns nil exactly when
    the last of these writes was accepted. *)
Theorem cmdExit_frame (d : Device) :
  session_ok d ->
  exists (n : nat) (r : option error),
    (1 <= n <= 3)%nat /\
    cmdExit GOOS d = (Ret r, add_written (replicate n frame_DC) (set_cmd frame_DC d)) /\
    (r = None <-> fails (device d) (length (written (device d)) + n - 1) = false).
Proof.
  intros Hs. unfold cmdExit.
  rewrite (build_frame0 header_DC frame_DC _ d Hs eq_refl).
  assert (Hs1 : session_ok (set_cmd frame_DC d))
    by (apply session_ok_set_cmd; [exact Hs | reflexivity]).
  destruct (WriteRetry_cmd_shape GOOS frame_DC (tl frame_DC) (set_cmd frame_DC d)
              Hs1 eq_refl eq_refl eq_refl)
    as (n & Hn & _ & [[Hlast Hw] | (-> & Hlast & e & Hw)]);
    change (device (set_cmd frame_DC d)) with (device d) in *.
  - exists n, None. split; [exact Hn |]. split; [exact Hw |].
    split; [intros _; exact Hlast | reflexivity].
  - exists 3%nat, (Some e). split; [lia |]. split; [exact Hw |].
    replace (length (written (device d)) + 3 - 1)%nat
      with (length (written (device d)) + 2)%nat by lia.
    split; [discriminate | intros Hf; congruence].
Qed.

(** X22.  [Flush] writes the stop frame and nothing else, between one and
    nine times; on a transport that accepts every report it writes it once
    and returns nil. *)
Theorem Flush_stop_frames (d : Device) :
  session_ok d ->
  exists (n : nat) (r : option error),
    (1 <= n <= 9)%nat /\
    Flush GOOS d = (Ret r, add_written (replicate n frame_STP) (set_cmd frame_STP d)) /\
    (transport_ok d -> n = 1%nat /\ r = None).
Proof.
  intros Hs. unfold Flush.
  destruct (cmdStopRetry_any GOOS d Hs) as (n & r & Hn & Hrun).
  exists n, r. split; [exact Hn |]. split; [exact Hrun |].
  intros Ht. rewrite (cmdStopRetry_ok GOOS d Hs Ht) in Hrun.
  injection Hrun as Hr Hd. split; [| symmetry; exact Hr].
  apply (f_equal length) in Hd.
  rewrite !length_app, length_replicate in Hd. cbn [length] in Hd. lia.
Qed.

End Closing.


(** ** Sample runs of the further properties *)

Lemma sample_flaky_session_ok : session_ok Sample.deck_flaky.
Proof. split; reflexivity. Defined.

Lemma sample_broken_session_ok : session_ok Sample.deck_broken.
Proof. split; reflexivity. Defined.

Lemma sample_asleep_session_ok : session_ok Sample.deck_asleep.
Proof. split; reflexivity. Defined.

Lemma sample_asleep_transport_ok : transport_ok Sample.deck_asleep.
Proof. intros k. reflexivity. Defined.

(** Three bytes sent on the transport that refuses its second report. *)
Lemma WriteRetry_attempts_witness :
  session_ok Sample.deck_flaky /\ [1; 2; 3] <> [] /\
  exists (n : nat) (r : option error),
    (1 <= n <= 3)%nat /\
    WriteRetry "linux" [1; 2; 3] Sample.deck_flaky
    = (Ret r, add_written (replicate n (report "linux" [1; 2; 3])) Sample.deck_flaky).
Proof.
  assert (Hne : [1; 2; 3] <> []) by discriminate.
  split; [exact sample_flaky_session_ok |]. split; [exact Hne |].
  destruct (WriteRetry_attempts "linux" [1; 2; 3] Sample.deck_flaky
              sample_flaky_session_ok Hne) as (n & r & Hn & Hrun & _).
  exists n, r. split; [exact Hn | exact Hrun].
Defined.

(** [Reset] of the sample panel. *)
Lemma Reset_sends_three_frames_witness :
  session_ok Sample.deck /\ transport_ok Sample.deck /\
  exists d',
    Reset "linux" Sample.deck = (Ret None, d') /\
    written (device d')
    = written (device Sample.deck) ++ [frame_STP; frame_LIG 100; frame_CLE 0xff].
Proof.
  split; [exact sample_session_ok |]. split; [exact sample_transport_ok |].
  destruct (Reset_sends_three_frames "linux" Sample.deck
              sample_session_ok sample_transport_ok) as (d' & Hrun & Hw & _).
  exists d'. split; [exact Hrun | exact Hw].
Defined.


(** [Open] of a session without buffers, on a handle that answers with a
    firmware version of three bytes. *)
Lemma Open_prepares_session_witness :
  exists d',
    Open "linux" 7 (Sample.quiet, None) Sample2.firmware Sample2.closed_deck
    = (Ret None, d') /\
    session_ok d' /\
    written (device d') = [frame_STP; frame_LIG 100; frame_CLE 0xff].
Proof.
  assert (Hh : handle_ok Sample.quiet) by (intros k; reflexivity).
  assert (Hn : 0 <= 3 <= Z.of_nat (length ([0x31; 0x32; 0x33] ++ drop 3 (0x01 :: replicate 511 0))))
    by (split; [lia | vm_compute; discriminate]).
  destruct (Open_prepares_session "linux" 7 Sample.quiet Sample2.firmware 3
              ([0x31; 0x32; 0x33] ++ drop 3 (0x01 :: replicate 511 0))
              Sample2.closed_deck Hh eq_refl Hn)
    as (d' & Hrun & Hs & Hw & _).
  exists d'. split; [exact Hrun |]. split; [exact Hs | exact Hw].
Defined.

(** [Open] on a handle that does not open. *)
Lemma Open_fails_before_writing_witness :
  exists d',
    Open "linux" 7 (Sample.quiet, Some (ErrWrite 0)) Sample2.firmware Sample2.closed_deck
    = (Ret (Some (ErrWrite 0)), d') /\
    device d' = Sample.quiet.
Proof.
  apply (Open_fails_before_writing "linux" 7 Sample.quiet (Some (ErrWrite 0))
           Sample2.firmware (ErrWrite 0) Sample2.closed_deck).
  left. reflexivity.
Defined.

(** [cmdHang] on the transport that refuses every report. *)
Lemma cmdHang_order_witness :
  session_ok Sample.deck_broken /\
  exists (n1 n2 : nat) (r : option error) (c : list Z),
    cmdHang "linux" Sample.deck_broken
    = (Ret r, add_written (replicate n1 frame_DC ++ replicate n2 frame_HAN)
                (set_cmd c Sample.deck_broken)) /\
    (1 <= n1 <= 3)%nat /\ (n2 <= 3)%nat.
Proof.
  split; [exact sample_broken_session_ok |].
  destruct (cmdHang_order "linux" Sample.deck_broken sample_broken_session_ok)
    as (n1 & n2 & r & c & Hrun & H1 & H2 & _).
  exists n1, n2, r, c. split; [exact Hrun |]. split; [exact H1 | exact H2].
Defined.

(** A logo of 854 x 480 x 3 zero bytes. *)
Lemma cmdLogo_writes_payload_only_witness :
  session_ok Sample.deck /\
  Z.of_nat (length (replicate (Z.to_nat 1229760) 0)) = 854 * 480 * 3 /\
  Z.of_nat (length (map (report "linux") (windows (replicate (Z.to_nat 1229760) 0))))
  = 2402.
Proof.
  assert (Hlen : Z.of_nat (length (replicate (Z.to_nat 1229760) 0)) = 854 * 480 * 3)
    by (rewrite length_replicate; lia).
  split; [exact sample_session_ok |]. split; [exact Hlen |].
  exact (proj1 (proj2 (cmdLogo_writes_payload_only "linux"
                         (replicate (Z.to_nat 1229760) 0) Sample.deck
                         sample_session_ok Hlen))).
Defined.

(** [cmdBatch] of three bytes for the target 0 on the sample panel. *)
Lemma cmdBatch_is_upload_of_next_index_witness :
  session_ok Sample.deck /\ transport_ok Sample.deck /\
  cmdBatch "linux" 0 [1; 2; 3] Sample.deck
  = cmdBatchRetry "linux" (uint8 (0 + 1)) [1; 2; 3] 3 Sample.deck.
Proof.
  split; [exact sample_session_ok |]. split; [exact sample_transport_ok |].
  exact (proj2 (cmdBatch_is_upload_of_next_index "linux" 0 [1; 2; 3] Sample.deck
                  sample_session_ok sample_transport_ok)).
Defined.

(** [cmdClear] of the key 5 on the transport that refuses its second
    report. *)
Lemma cmdClear_slot_witness :
  is_uint8 5 /\ session_ok Sample.deck_flaky /\
  exists (n : nat) (r : option error) (slot : Z),
    (1 <= n <= 3)%nat /\
    cmdClear "linux" 5 Sample.deck_flaky
    = (Ret r, add_written (replicate n (frame_CLE slot))
                (set_cmd (frame_CLE slot) Sample.deck_flaky)) /\
    frame_CLE slot !! 11%nat = Some slot.
Proof.
  assert (Hu : is_uint8 5) by (unfold is_uint8; lia).
  split; [exact Hu |]. split; [exact sample_flaky_session_ok |].
  destruct (cmdClear_slot "linux" 5 Sample.deck_flaky Hu sample_flaky_session_ok)
    as (n & r & slot & Hn & Hrun & Hslot & _).
  exists n, r, slot. split; [exact Hn |]. split; [exact Hrun | exact Hslot].
Defined.

(** The black image sent to the key 0 on the transport that refuses its
    second report. *)
Lemma SetImage_returns_witness :
  session_ok Sample.deck_flaky /\
  exists (r : option error) (rs : list (list Z)) (c : list Z),
    SetImage "linux" Sample.flip Sample.encode 0 (blackImage 2) Sample.deck_flaky
    = (Ret r, add_written rs (set_cmd c Sample.deck_flaky)) /\
    length c = 512%nat.
Proof.
  split; [exact sample_flaky_session_ok |].
  exact (SetImage_returns "linux" Sample.flip Sample.encode 0 (blackImage 2)
           Sample.deck_flaky sample_flaky_session_ok).
Defined.

(** The fade of the sample panel from 80 to 0. *)
Lemma Fade_awake_trace_witness :
  session_ok Sample.deck /\ transport_ok Sample.deck /\ asleep Sample.deck = false /\
  exists d',
    Fade "linux" Sample.ticks 80 0 250000000 Sample.deck = (Ret None, d') /\
    written (device d')
    = written (device Sample.deck)
      ++ map (fun t => frame_LIG (clamp t)) (Sample.ticks 80 0 250000000).
Proof.
  split; [exact sample_session_ok |]. split; [exact sample_transport_ok |].
  split; [reflexivity |].
  destruct (Fade_awake_trace "linux" Sample.ticks 80 0 250000000 Sample.deck
              sample_session_ok sample_transport_ok eq_refl)
    as (d' & Hrun & Hw & _).
  exists d'. split; [exact Hrun | exact Hw].
Defined.

(** The fade from 0 to 80 asked of the sample panel while it is asleep. *)
Lemma Fade_asleep_stays_dark_witness :
  session_ok Sample.deck_asleep /\ asleep Sample.deck_asleep = true /\
  sleepMutex Sample.deck_asleep = false /\
  Forall (fun t => 0 <= t) (Sample.ticks 0 80 250000000) /\
  exists (r : option error) (d' : Device) (rs : list (list Z)),
    Fade "linux" Sample.ticks 0 80 250000000 Sample.deck_asleep = (Ret r, d') /\
    written (device d') = written (device Sample.deck_asleep) ++ rs /\
    Forall (fun x => x = frame_LIG 0) rs.
Proof.
  assert (Hticks : Forall (fun t => 0 <= t) (Sample.ticks 0 80 250000000)).
  { change (Sample.ticks 0 80 250000000) with [0; 40].
    constructor; [lia | constructor; [lia | constructor]]. }
  split; [exact sample_asleep_session_ok |]. split; [reflexivity |].
  split; [reflexivity |]. split; [exact Hticks |].
  destruct (Fade_asleep_stays_dark "linux" Sample.ticks 0 80 250000000
              Sample.deck_asleep sample_asleep_session_ok eq_refl eq_refl Hticks)
    as (r & d' & rs & Hrun & Hw & Hrs & _).
  exists r, d', rs. split; [exact Hrun |]. split; [exact Hw | exact Hrs].
Defined.

(** [Sleep] asked of the panel that is asleep with a stored brightness of
    50. *)
Lemma Sleep_while_asleep_blocks_witness :
  asleep Sample2.deck_asleep_50 = true /\
  sleepMutex Sample2.deck_asleep_50 = false /\
  0 < 50 /\
  exists d',
    Sleep "linux" Sample.ticks Sample2.deck_asleep_50 = (Fault Deadlock, d').
Proof.
  assert (Hpos : 0 < 50) by lia.
  split; [reflexivity |]. split; [reflexivity |]. split; [exact Hpos |].
  destruct (Sleep_while_asleep_blocks "linux" Sample.ticks 50 [25]
              Sample2.deck_asleep_50 eq_refl eq_refl eq_refl Hpos)
    as (d' & Hrun & _).
  exists d'. exact Hrun.
Defined.

(** A tick of the timer five time units after the last action, with a
    timeout of ten. *)
Lemma sleepTimer_tick_cases_witness :
  sleepMutex Sample.deck = false /\
  sleepTimer_tick "linux" Sample.ticks 10 5 Sample.deck = (Ret tt, Sample.deck).
Proof.
  split; [reflexivity |].
  apply (proj1 (sleepTimer_tick_cases "linux" Sample.ticks 10 5 Sample.deck eq_refl)).
  right. cbn. lia.
Defined.

Lemma sample_key_reports :
  Forall (fun a => key_report ajazz_to_elgato (Columns Sample.deck) (fst a))
    [Sample2.key 13; Sample2.key 1].
Proof.
  constructor; [| constructor; [| constructor]].
  - split; [reflexivity |]. split; [cbn; lia |].
    exists 13, 0. split; reflexivity.
  - split; [reflexivity |]. split; [cbn; lia |].
    exists 1, 4. split; reflexivity.
Defined.

(** The keys with the scan codes 13 and 1 pressed on the sample panel. *)
Lemma ReadKeys_events_witness :
  asleep Sample.deck = false /\ sleepMutex Sample.deck = false /\
  exists buf : list Z,
    ReadKeys "linux" Sample.ticks ajazz_to_elgato [Sample2.key 13; Sample2.key 1]
      Sample.deck
    = (Ret (mkReader buf
              (flat_map (fun a => key_events ajazz_to_elgato (Columns Sample.deck) (fst a))
                 [Sample2.key 13; Sample2.key 1])
              false),
       from_option (fun a => set_lastActionTime (snd a) Sample.deck) Sample.deck
         (last [Sample2.key 13; Sample2.key 1])).
Proof.
  split; [reflexivity |]. split; [reflexivity |].
  destruct (ReadKeys_events "linux" Sample.ticks ajazz_to_elgato
              [Sample2.key 13; Sample2.key 1] Sample.deck eq_refl eq_refl
              sample_key_reports) as (buf & Hrun & _).
  exists buf. exact Hrun.
Defined.

(** A report of three bytes after two key reports, with the translation of
    the device. *)
Lemma ReadKeys_short_report_witness :
  (length (read_bytes (fst Sample2.short_report)) <= 9)%nat /\
  ReadKeys "linux" Sample.ticks ajazz_to_elgato
    ([Sample2.key 13; Sample2.key 1] ++ [(fst Sample2.short_report, 43)]) Sample.deck
  = (Fault IndexOutOfRange, set_lastActionTime 43 Sample.deck).
Proof.
  assert (Hshort : (length (read_bytes (fst Sample2.short_report)) <= 9)%nat)
    by (cbn; lia).
  assert (Hn : 0 < read_n (fst Sample2.short_report)) by (cbn; lia).
  split; [exact Hshort |].
  apply (proj2 (ReadKeys_short_report "linux" Sample.ticks ajazz_to_elgato
                  [Sample2.key 13; Sample2.key 1] (fst Sample2.short_report) 43
                  Sample.deck eq_refl eq_refl sample_key_reports eq_refl Hn Hshort)).
  reflexivity.
Defined.

(** A read error after a key report, followed by another key report. *)
Lemma ReadKeys_read_error_closes_witness :
  exists buf : list Z,
    ReadKeys "linux" Sample.ticks ajazz_to_elgato
      ([Sample2.key 13] ++ (mkRead 0 (Some (ErrWrite 0)) [], 44) :: [Sample2.key 1])
      Sample.deck
    = (Ret (mkReader buf [mkKey 0 true; mkKey 0 false] true),
       set_lastActionTime 42 Sample.deck).
Proof.
  apply (ReadKeys_read_error_closes "linux" Sample.ticks ajazz_to_elgato
           [Sample2.key 13] [Sample2.key 1] (mkRead 0 (Some (ErrWrite 0)) []) 44
           (ErrWrite 0)
           (mkReader (<[9%nat:=0]> (copy (replicate 512 0) (read_bytes (fst (Sample2.key 13)))))
              [mkKey 0 true; mkKey 0 false] false)
           Sample.deck (set_lastActionTime 42 Sample.deck)).
  - vm_compute. reflexivity.
  - reflexivity.
  - reflexivity.
Defined.

(** A key report that reaches the sleeping sample panel, and one after
    it. *)
Lemma ReadKeys_wakes_without_event_witness :
  session_ok Sample.deck_asleep /\ transport_ok Sample.deck_asleep /\
  asleep Sample.deck_asleep = true /\
  exists (buf : list Z) (d' : Device),
    ReadKeys "linux" Sample.ticks ajazz_to_elgato
      [Sample2.key 1; Sample2.key 13; Sample2.key 1] Sample.deck_asleep
    = (Ret (mkReader buf
              (flat_map
                 (fun a => key_events ajazz_to_elgato (Columns Sample.deck_asleep) (fst a))
                 [Sample2.key 13; Sample2.key 1])
              false),
       d') /\
    asleep d' = false.
Proof.
  assert (Hn : 0 < read_n (fst (Sample2.key 1))) by (cbn; lia).
  split; [exact sample_asleep_session_ok |].
  split; [exact sample_asleep_transport_ok |]. split; [reflexivity |].
  destruct (ReadKeys_wakes_without_event "linux" Sample.ticks ajazz_to_elgato
              (fst (Sample2.key 1)) 42 [Sample2.key 13; Sample2.key 1]
              Sample.deck_asleep sample_asleep_session_ok sample_asleep_transport_ok
              eq_refl eq_refl eq_refl Hn sample_key_reports)
    as (buf & d' & Hrun & Ha & _).
  exists buf, d'. split; [exact Hrun | exact Ha].
Defined.

(** [cmdExit] on the transport that refuses every report. *)
Lemma cmdExit_frame_witness :
  session_ok Sample.deck_broken /\
  exists (n : nat) (r : option error),
    (1 <= n <= 3)%nat /\
    cmdExit "linux" Sample.deck_broken
    = (Ret r, add_written (replicate n frame_DC) (set_cmd frame_DC Sample.deck_broken)).
Proof.
  split; [exact sample_broken_session_ok |].
  destruct (cmdExit_frame "linux" Sample.deck_broken sample_broken_session_ok)
    as (n & r & Hn & Hrun & _).
  exists n, r. split; [exact Hn | exact Hrun].
Defined.

(** [Flush] of the sample panel. *)
Lemma Flush_stop_frames_witness :
  session_ok Sample.deck /\
  exists (n : nat) (r : option error),
    (1 <= n <= 9)%nat /\
    Flush "linux" Sample.deck
    = (Ret r, add_written (replicate n frame_STP) (set_cmd frame_STP Sample.deck)).
Proof.
  split; [exact sample_session_ok |].
  destruct (Flush_stop_frames "linux" Sample.deck sample_session_ok)
    as (n & r & Hn & Hrun & _).
  exists n, r. split; [exact Hn | exact Hrun].
Defined.

